(** * movie_etl_project: the extract / normalise / load pipeline of [etl.py]

    A shallow embedding of [src/etl.py]: the Python values the pipeline
    handles, the pandas frames it builds, the SQL statement the loader
    emits together with the store it runs against, and the orchestrator's
    loop.  Every definition carries the name of the Python function (or of
    the library call) it stands for. *)

From Stdlib Require Import ZArith String Ascii List Bool Lia.
From stdpp Require Import base option list gmap strings fin_maps.

#[local] Set Warnings "-register-all".

Local Open Scope string_scope.
Local Open Scope list_scope.

(** ** Python values *)

(** Decoded JSON and the few extra values pandas hands back.  A float is
    the dyadic number [m * 2^e]; NaN and NaT are not told apart from
    [None], pandas treats the three alike as "missing". *)
Inductive pyval : Type :=
| PyNone
| PyBool (b : bool)
| PyInt (z : Z)
| PyFloat (m e : Z)
| PyStr (s : string)
| PyList (l : list pyval)
| PyDict (d : list (string * pyval))
| PyTimestamp (ns : Z).

Abbreviation record := (list (string * pyval)).
Abbreviation row := (gmap string pyval).

Inductive exn : Type :=
| TypeError
| KeyError (k : string)
| ValueError
| AttributeError
| ConnectionError
| JSONDecodeError
| DatabaseError (msg : string).

(** Result of a computation that may raise. *)
Inductive res (A : Type) : Type :=
| Ret (a : A)
| Raise (e : exn).
Arguments Ret {A} a.
Arguments Raise {A} e.

Definition res_bind {A B} (x : res A) (f : A → res B) : res B :=
  match x with
  | Ret a => f a
  | Raise e => Raise e
  end.

#[global] Instance res_mret : MRet res := @Ret.
#[global] Instance res_mbind : MBind res := λ A B f x, res_bind x f.

Fixpoint res_mapM {A B} (f : A → res B) (l : list A) : res (list B) :=
  match l with
  | [] => Ret []
  | x :: t =>
      match f x with
      | Raise e => Raise e
      | Ret y =>
          match res_mapM f t with
          | Raise e => Raise e
          | Ret ys => Ret (y :: ys)
          end
      end
  end.

(** [bool(v)] *)
Definition truthy (v : pyval) : bool :=
  match v with
  | PyNone => false
  | PyBool b => b
  | PyInt z => negb (z =? 0)%Z
  | PyFloat m _ => negb (m =? 0)%Z
  | PyStr s => negb (String.eqb s "")
  | PyList l => match l with [] => false | _ => true end
  | PyDict d => match d with [] => false | _ => true end
  | PyTimestamp _ => true
  end.

(** [pd.isna(v)] on a scalar cell *)
Definition isna (v : pyval) : bool :=
  match v with
  | PyNone => true
  | _ => false
  end.

Definition notna (v : pyval) : bool := negb (isna v).

(** [d.get(key)] and [d.get(key, dflt)] on a dict *)
Fixpoint dict_lookup (key : string) (d : record) : option pyval :=
  match d with
  | [] => None
  | (k, v) :: t => if String.eqb k key then Some v else dict_lookup key t
  end.

Definition dict_get (d : record) (key : string) (dflt : pyval) : pyval :=
  default dflt (dict_lookup key d).

(** [obj.get(key, dflt)]: only a dict has the method. *)
Definition py_get (obj : pyval) (key : string) (dflt : pyval) : res pyval :=
  match obj with
  | PyDict d => Ret (dict_get d key dflt)
  | _ => Raise AttributeError
  end.

(** ** [str(int)] and [startswith] *)

Definition digit_char (d : Z) : ascii := ascii_of_nat (48 + Z.to_nat d).

Fixpoint digits_of (fuel : nat) (n : Z) (acc : string) : string :=
  match fuel with
  | O => acc
  | S f =>
      let acc' := String (digit_char (n mod 10)) acc in
      if (n <? 10)%Z then acc' else digits_of f (n / 10) acc'
  end.

Definition str_int (z : Z) : string :=
  if (z <? 0)%Z
  then String "-" (digits_of (S (Z.to_nat (Z.log2 (- z)))) (- z) "")
  else digits_of (S (Z.to_nat (Z.log2 z))) z "".

Definition startswith (s p : string) : bool := String.prefix p s.

(** ** pandas frames *)

(** A frame is its column labels and its rows; a row maps a label to the
    cell, and a label without entry reads as missing. *)
Record DataFrame : Type := mkDataFrame {
  columns : list string;
  rows : list row
}.

Definition cell (r : row) (c : string) : pyval := default PyNone (r !! c).

Definition has_column (c : string) (df : DataFrame) : bool :=
  bool_decide (c ∈ columns df).

(** Labels in order of first appearance. *)
Fixpoint unique_labels (seen : list string) (l : list string) : list string :=
  match l with
  | [] => []
  | x :: t =>
      if bool_decide (x ∈ seen) then unique_labels seen t
      else x :: unique_labels (x :: seen) t
  end.

Fixpoint as_records (l : list pyval) : option (list record) :=
  match l with
  | [] => Some []
  | PyDict d :: t => cons d <$> as_records t
  | _ :: _ => None
  end.

Definition row_of_record (d : record) : row := list_to_map d.

(** [pd.DataFrame(results)] for a list of JSON objects: one column per key,
    keys in order of first appearance, one row per object.  Any other
    payload is outside the record-sequence input of the pipeline; pandas
    rejects scalars and strings with [ValueError], which is what the model
    answers for all of them. *)
Definition pd_DataFrame (results : pyval) : res DataFrame :=
  match results with
  | PyList l =>
      match as_records l with
      | Some recs =>
          Ret {| columns := unique_labels [] (concat (map (map fst) recs));
                 rows := map row_of_record recs |}
      | None => Raise ValueError
      end
  | _ => Raise ValueError
  end.

(** [df.dropna(subset=[c], inplace=True)] *)
Definition dropna (c : string) (df : DataFrame) : res DataFrame :=
  if has_column c df
  then Ret {| columns := columns df;
              rows := List.filter (λ r, notna (cell r c)) (rows df) |}
  else Raise (KeyError c).

(** [df.loc[:, cols]] *)
Definition loc_columns (cols : list string) (df : DataFrame) : res DataFrame :=
  match List.find (λ c, negb (has_column c df)) cols with
  | Some c => Raise (KeyError c)
  | None =>
      Ret {| columns := cols;
             rows := map (λ r, list_to_map (map (λ c, (c, cell r c)) cols))
                         (rows df) |}
  end.

(** What [explode] makes of one cell: a list-like gives its elements (the
    keys, for a dict), an empty list-like gives one missing value, a scalar
    stays. *)
Definition explode_cell (v : pyval) : list pyval :=
  match v with
  | PyList [] => [PyNone]
  | PyList l => l
  | PyDict [] => [PyNone]
  | PyDict d => map (λ kv, PyStr (fst kv)) d
  | _ => [v]
  end.

(** [df.explode(column=c)] *)
Definition explode (c : string) (df : DataFrame) : res DataFrame :=
  if has_column c df
  then Ret {| columns := columns df;
              rows := flat_map (λ r, map (λ v, <[c := v]> r)
                                         (explode_cell (cell r c)))
                               (rows df) |}
  else Raise (KeyError c).

(** [df.rename(columns=mapping)]; labels that are not in the frame are
    ignored, as pandas does. *)
Definition rename_label (mapping : list (string * string)) (c : string) : string :=
  match List.find (λ kv, String.eqb (fst kv) c) mapping with
  | Some kv => snd kv
  | None => c
  end.

Definition rename (mapping : list (string * string)) (df : DataFrame) : DataFrame :=
  {| columns := map (rename_label mapping) (columns df);
     rows := map (λ r, list_to_map
                         (map (λ c, (rename_label mapping c, cell r c))
                              (columns df)))
                 (rows df) |}.

(** [df[c]] *)
Definition get_column (c : string) (df : DataFrame) : res (list pyval) :=
  if has_column c df
  then Ret (map (λ r, cell r c) (rows df))
  else Raise (KeyError c).

(** [df[c] = values], the values aligned with the rows. *)
Definition set_column (c : string) (values : list pyval) (df : DataFrame) : DataFrame :=
  {| columns := if has_column c df then columns df else columns df ++ [c];
     rows := zip_with (λ r v, <[c := v]> r) (rows df) values |}.

(** [df.drop(columns=cols, inplace=True)] *)
Definition drop_columns (cols : list string) (df : DataFrame) : res DataFrame :=
  match List.find (λ c, negb (has_column c df)) cols with
  | Some c => Raise (KeyError c)
  | None =>
      Ret {| columns := List.filter (λ c, negb (bool_decide (c ∈ cols)))
                                    (columns df);
             rows := map (λ r, foldr delete r cols) (rows df) |}
  end.

(** The tuples [to_sql] hands to the insertion method. *)
Definition data_iter (df : DataFrame) : list (list pyval) :=
  map (λ r, map (cell r) (columns df)) (rows df).

(** ** The store *)

(** Modelled from the spec: the schema of the store, whose DDL is not in
    the source.  Section 6 gives [genres(id PK, name, ...)],
    [movies(id PK, ..., release_date DATE, ...)] and
    [movie_genres(movie_id, genre_id, UNIQUE(movie_id, genre_id))], all in
    the namespace [etl_project]; identifiers are integers.  A table keyed
    by [id] is a map from the identifier to the stored row.  The join
    table holds pairs; a pair with a NULL component is outside the reach
    of its UNIQUE constraint, so the table is a list. *)
Record store : Type := mkStore {
  genres : gmap Z row;
  movies : gmap Z row;
  movie_genres : list (option Z * option Z)
}.

Definition empty_store : store :=
  {| genres := ∅; movies := ∅; movie_genres := [] |}.

(** The statement text of [insert_on_conflict_update], as syntax:
    [INSERT INTO into_table (stmt_columns) VALUES %s
     ON CONFLICT (conflict_target) on_conflict]. *)
Inductive conflict_action : Type :=
| DoNothing
| DoUpdateSet (assigned : list string).   (* SET c = EXCLUDED.c, ... *)

Record insert_stmt : Type := mkInsert {
  into_table : string;
  stmt_columns : list string;
  conflict_target : list string;
  on_conflict : conflict_action
}.

(** The value of an integer key column: NULL, an integer, or a value the
    column rejects.  Identifiers are integers in the data model, and a
    key cell of a frame is an integer or missing.  A cell of another type
    is outside the data model; it is refused here, where PostgreSQL would
    first try to cast it on assignment (a float [18.0] would be stored as
    [18]).  What is stated of refused statements and of untouched rows is
    therefore stated for frames whose key cells are integers or missing. *)
Definition key_cell (v : pyval) : res (option Z) :=
  match v with
  | PyNone => Ret None
  | PyInt z => Ret (Some z)
  | _ => Raise (DatabaseError "invalid input for type integer")
  end.

(** The row a tuple of [VALUES] proposes for insertion. *)
Definition proposed (cols : list string) (tuple : list pyval) : row :=
  list_to_map (zip cols tuple).

(** [SET c = EXCLUDED.c] for every assigned column, on the stored row. *)
Definition set_excluded (assigned : list string) (excluded old : row) : row :=
  foldr (λ c acc, <[c := cell excluded c]> acc) old assigned.

(** From here to [execute_values]: what PostgreSQL and psycopg2 make of
    the statement, which the source takes as given.

    What is wrong with a statement whatever the table holds: its syntax,
    and the shape of its tuples. *)
Definition check_syntax (st : insert_stmt) (page : list (list pyval)) : option exn :=
  if bool_decide (stmt_columns st = []) then
    Some (DatabaseError "syntax error at or near )")
  else if match on_conflict st with DoUpdateSet [] => true | _ => false end then
    Some (DatabaseError "syntax error at end of input")
  else if negb (bool_decide (NoDup (stmt_columns st))) then
    Some (DatabaseError "column specified more than once")
  else if negb (forallb (λ t, Nat.eqb (length t) (length (stmt_columns st))) page) then
    Some (DatabaseError "INSERT target columns and expressions differ in number")
  else None.

(** *** Tables keyed by [id] *)

Definition row_id (r : row) : res Z :=
  match key_cell (cell r "id") with
  | Raise e => Raise e
  | Ret None => Raise (DatabaseError "null value in column id violates not-null constraint")
  | Ret (Some k) => Ret k
  end.

Definition upsert (act : conflict_action) (t : gmap Z row) (kr : Z * row) : gmap Z row :=
  match t !! kr.1 with
  | None => <[kr.1 := kr.2]> t
  | Some old =>
      match act with
      | DoNothing => t
      | DoUpdateSet assigned => <[kr.1 := set_excluded assigned kr.2 old]> t
      end
  end.

(** One [INSERT ... ON CONFLICT] statement on a table whose primary key
    is [id]: first what the statement proposes, which does not depend on
    the rows already stored, then its effect.  [DO UPDATE] refuses to
    touch one row twice in a statement. *)
Definition keyed_rows (st : insert_stmt) (page : list (list pyval))
    : res (list (Z * row)) :=
  match check_syntax st page with
  | Some e => Raise e
  | None =>
      if negb (bool_decide (conflict_target st = ["id"])) then
        Raise (DatabaseError "no unique constraint matching the ON CONFLICT specification")
      else
        let rs := map (proposed (stmt_columns st)) page in
        match res_mapM row_id rs with
        | Raise e => Raise e
        | Ret ks =>
            if match on_conflict st with
               | DoNothing => true
               | DoUpdateSet _ => bool_decide (NoDup ks)
               end
            then Ret (zip ks rs)
            else Raise (DatabaseError "ON CONFLICT DO UPDATE command cannot affect row a second time")
        end
  end.

Definition exec_keyed (st : insert_stmt) (page : list (list pyval))
    (t : gmap Z row) : res (gmap Z row) :=
  match keyed_rows st page with
  | Raise e => Raise e
  | Ret krs => Ret (fold_left (upsert (on_conflict st)) krs t)
  end.

(** *** The join table *)

Definition row_pair (r : row) : res (option Z * option Z) :=
  match key_cell (cell r "movie_id"), key_cell (cell r "genre_id") with
  | Ret m, Ret g => Ret (m, g)
  | Raise e, _ => Raise e
  | _, Raise e => Raise e
  end.

Definition pair_is_key (p : option Z * option Z) : bool :=
  match p with
  | (Some _, Some _) => true
  | _ => false
  end.

(** A proposed pair conflicts when it has no NULL and is already there.
    The table has no column besides the pair, so [DO UPDATE] of a
    conflicting row leaves it as it was. *)
Definition insert_pair (t : list (option Z * option Z)) (p : option Z * option Z)
    : list (option Z * option Z) :=
  if pair_is_key p && bool_decide (p ∈ t) then t else t ++ [p].

Definition join_pairs (st : insert_stmt) (page : list (list pyval))
    : res (list (option Z * option Z)) :=
  match check_syntax st page with
  | Some e => Raise e
  | None =>
      if negb (bool_decide (conflict_target st = ["movie_id"; "genre_id"])) then
        Raise (DatabaseError "no unique constraint matching the ON CONFLICT specification")
      else if negb (forallb (λ c, bool_decide (c ∈ ["movie_id"; "genre_id"]))
                            (stmt_columns st)) then
        Raise (DatabaseError "column of relation movie_genres does not exist")
      else
        match res_mapM row_pair (map (proposed (stmt_columns st)) page) with
        | Raise e => Raise e
        | Ret ps =>
            if match on_conflict st with
               | DoNothing => true
               | DoUpdateSet _ => bool_decide (NoDup (List.filter pair_is_key ps))
               end
            then Ret ps
            else Raise (DatabaseError "ON CONFLICT DO UPDATE command cannot affect row a second time")
        end
  end.

Definition exec_join (st : insert_stmt) (page : list (list pyval))
    (t : list (option Z * option Z)) : res (list (option Z * option Z)) :=
  match join_pairs st page with
  | Raise e => Raise e
  | Ret ps => Ret (fold_left insert_pair ps t)
  end.

(** [cur.execute(stmt)] for one page of tuples. *)
Definition cur_execute (st : insert_stmt) (page : list (list pyval))
    (s : store) : res store :=
  if String.eqb (into_table st) "etl_project.genres" then
    t ← exec_keyed st page (genres s);
    mret {| genres := t; movies := movies s; movie_genres := movie_genres s |}
  else if String.eqb (into_table st) "etl_project.movies" then
    t ← exec_keyed st page (movies s);
    mret {| genres := genres s; movies := t; movie_genres := movie_genres s |}
  else if String.eqb (into_table st) "etl_project.movie_genres" then
    t ← exec_join st page (movie_genres s);
    mret {| genres := genres s; movies := movies s; movie_genres := t |}
  else Raise (DatabaseError "no unique constraint matching the ON CONFLICT specification").

(** [psycopg2.extras.execute_values]: the tuples go out in pages of
    [page_size = 100], one statement per page, all in the transaction the
    caller commits. *)
Definition page_size : nat := 100.

Fixpoint paginate {A} (fuel : nat) (l : list A) : list (list A) :=
  match fuel, l with
  | _, [] => []
  | O, _ => []
  | S f, _ => take page_size l :: paginate f (drop page_size l)
  end.

Fixpoint execute_pages (st : insert_stmt) (pages : list (list (list pyval)))
    (s : store) : res store :=
  match pages with
  | [] => Ret s
  | p :: ps =>
      match cur_execute st p s with
      | Raise e => Raise e
      | Ret s' => execute_pages st ps s'
      end
  end.

Definition execute_values (st : insert_stmt) (argslist : list (list pyval))
    (s : store) : res store :=
  execute_pages st (paginate (length argslist) argslist) s.

(** ** The world the pipeline runs in *)

(** [env_variables]: the token and the endpoint table. *)
Record env_variables : Type := mkEnv {
  ACCESS_TOKEN : string;
  url : list (string * string)
}.

Record request : Type := mkRequest {
  req_method : string;
  req_url : string;
  req_headers : list (string * string);
  req_params : list (string * pyval)
}.

(** What [rq.request] returns: the status code, and the decoded body when
    [response.json()] does not raise. *)
Record response : Type := mkResponse {
  status_code : Z;
  json : option pyval
}.

Inductive log_record : Type :=
| ApiResponseCode (status : Z)
| DataExtractionError (e : exn)
| MovieTransformationError (e : exn)
| GenreTransformationError (e : exn)
| DataLoaded (table_name : string)
| LoadingError (table_name : string) (e : exn)
| InsertOnConflictError (e : exn)
| PaginationIs (pagination : Z)
| ReachedLastPage
| EtlCompleted.

(** The store, the log written so far (latest first) and the requests
    sent so far (latest first). *)
Record world : Type := mkWorld {
  db : store;
  log : list log_record;
  sent : list request
}.

(** A Python procedure: it may raise, and it changes the world either way. *)
Definition M (A : Type) : Type := world → res A * world.

Definition ret {A} (a : A) : M A := λ w, (Ret a, w).
Definition raise {A} (e : exn) : M A := λ w, (Raise e, w).
Definition bind {A B} (c : M A) (k : A → M B) : M B :=
  λ w, match c w with
       | (Ret a, w') => k a w'
       | (Raise e, w') => (Raise e, w')
       end.
Definition lift {A} (r : res A) : M A := λ w, (r, w).

(** [try: body  except Exception as e: handler e] *)
Definition try_except {A} (body : M A) (handler : exn → M A) : M A :=
  λ w, match body w with
       | (Ret a, w') => (Ret a, w')
       | (Raise e, w') => handler e w'
       end.

Declare Scope py_scope.
Delimit Scope py_scope with py.
Notation "x <- c ;; k" := (bind c (λ x, k))
  (at level 100, c at next level, right associativity) : py_scope.
Notation "c ;; k" := (bind c (λ _, k))
  (at level 100, right associativity) : py_scope.
Local Open Scope py_scope.

Definition logging (r : log_record) : M unit :=
  λ w, (Ret (), {| db := db w; log := r :: log w; sent := sent w |}).

(** [pagination >= total_pages] *)
Definition py_ge (p : Z) (v : pyval) : res bool :=
  match v with
  | PyInt t => Ret (t <=? p)%Z
  | PyBool b => Ret ((if b then 1 else 0) <=? p)%Z
  | PyFloat m e =>
      Ret (if (0 <=? e)%Z then (m * 2 ^ e <=? p)%Z else (m <=? p * 2 ^ (- e))%Z)
  | _ => Raise TypeError
  end.

(** [a, b = value]: unpacking [None] raises. *)
Definition unpack {A B} (v : option (A * B)) : M (A * B) :=
  match v with
  | Some ab => ret ab
  | None => raise TypeError
  end.

Inductive loop_control : Type :=
| Break
| NextIteration (pagination : Z).

Section Pipeline.

(** The surroundings the source reads but does not define: its
    configuration, the remote API (what the [n]-th request of the run is
    answered, [None] when the transport fails) and pandas' conversion of
    one non-missing value to a timestamp ([None] when it raises; the
    answer may be [PyNone] for NaT). *)
Variable env : env_variables.
Variable api : nat → request → option response.
Variable to_datetime_value : pyval → option pyval.

(** [rq.request(...)] *)
Definition rq_request (req : request) : M response :=
  λ w, let w' := {| db := db w; log := log w; sent := req :: sent w |} in
       match api (length (sent w)) req with
       | Some r => (Ret r, w')
       | None => (Raise ConnectionError, w')
       end.

(** [response.json()] *)
Definition response_json (r : response) : res pyval :=
  match json r with
  | Some v => Ret v
  | None => Raise JSONDecodeError
  end.

Definition auth_header : list (string * string) :=
  [("Authorization", "Bearer " +:+ ACCESS_TOKEN env); ("accept", "application/json")].

(** [env.url.get(name)]; a missing entry gives [None], which [rq.request]
    refuses as a URL. *)
Definition env_url (name : string) : option string :=
  snd <$> List.find (λ kv, String.eqb (fst kv) name) (url env).

Definition get_request (u : string) (params : list (string * pyval)) : request :=
  {| req_method := "GET"; req_url := u;
     req_headers := auth_header; req_params := params |}.

Definition request_url (u : option string) (params : list (string * pyval)) : M response :=
  match u with
  | Some u' => rq_request (get_request u' params)
  | None => raise ValueError
  end.

Definition movies_params (page : Z) : list (string * pyval) :=
  [("page", PyInt page); ("sort_by", PyStr "primary_release_date.asc")].

Definition extract_movies (u : option string) (data : string) (page : Z)
    : M (option (pyval * pyval)) :=
  try_except
    (response <- request_url u (movies_params page);;
     logging (ApiResponseCode (status_code response));;
     if startswith (str_int (status_code response)) "20" then
       json_response <- lift (response_json response);;
       results <- lift (py_get json_response data PyNone);;
       total_pages <- lift (py_get json_response "total_pages" (PyInt 1));;
       ret (Some (results, total_pages))
     else ret (Some (PyList [], PyInt 0)))
    (λ e, logging (DataExtractionError e);; ret None).

Definition extract_genre (u : option string) (data : string) : M pyval :=
  try_except
    (response <- request_url u [];;
     logging (ApiResponseCode (status_code response));;
     if startswith (str_int (status_code response)) "20" then
       json_response <- lift (response_json response);;
       lift (py_get json_response data PyNone)
     else ret (PyList []))
    (λ e, logging (DataExtractionError e);; ret PyNone).

(** [pd.to_datetime(series)]: a missing value becomes NaT, any other value
    is converted or makes the call raise. *)
Definition to_datetime_scalar (v : pyval) : res pyval :=
  match v with
  | PyNone => Ret PyNone
  | _ => match to_datetime_value v with
         | Some t => Ret t
         | None => Raise ValueError
         end
  end.

Definition pd_to_datetime (series : list pyval) : res (list pyval) :=
  res_mapM to_datetime_scalar series.

Definition excluded_columns : list string :=
  ["backdrop_path"; "poster_path"; "video"; "adult"; "genre_ids"].

(** The [try] block of [transform_movies]. *)
Definition transform_movies_body (results : pyval) : res (DataFrame * DataFrame) :=
  df ← pd_DataFrame results;
  df ← dropna "id" df;
  df ← dropna "genre_ids" df;
  movie_genre_df ← loc_columns ["id"; "genre_ids"] df;
  movie_genre_df ← explode "genre_ids" movie_genre_df;
  let movie_genre_df :=
    rename [("id", "movie_id"); ("genre_ids", "genre_id")] movie_genre_df in
  movie_genre_df ← dropna "genre_id" movie_genre_df;
  release_date ← get_column "release_date" df;
  release_date ← pd_to_datetime release_date;
  let df := set_column "release_date" release_date df in
  df ← drop_columns excluded_columns df;
  mret (df, movie_genre_df).

Definition transform_movies (results : pyval) : M (option (DataFrame * DataFrame)) :=
  try_except
    (r <- lift (transform_movies_body results);; ret (Some r))
    (λ e, logging (MovieTransformationError e);; ret None).

(** [series.dropna(inplace=True)] on a column taken out of a frame: the
    series object is shortened, the frame it came from is not. *)
Definition series_dropna (series : list pyval) : list pyval :=
  List.filter notna series.

(** The [try] block of [transform_genre]. *)
Definition transform_genre_body (results : pyval) : res DataFrame :=
  genre_df ← pd_DataFrame results;
  id_series ← get_column "id" genre_df;
  let id_series := series_dropna id_series in
  mret genre_df.

Definition transform_genre (results : pyval) : M (option DataFrame) :=
  try_except
    (r <- lift (transform_genre_body results);; ret (Some r))
    (λ e, logging (GenreTransformationError e);; ret None).

(** pandas' [SQLTable]: the pieces the insertion method reads. *)
Record sql_table : Type := mkTable {
  table_schema : string;
  table_name : string
}.

(** The statement [insert_on_conflict_update] builds. *)
Definition build_insert (table : sql_table) (keys : list string) : insert_stmt :=
  let qualified :=
    if negb (String.eqb (table_schema table) "")
    then table_schema table +:+ "." +:+ table_name table
    else table_name table in
  let columns := List.filter (λ key, negb (String.eqb key "id")) keys in
  if String.eqb (table_name table) "movie_genres" then
    {| into_table := qualified; stmt_columns := keys;
       conflict_target := ["movie_id"; "genre_id"]; on_conflict := DoNothing |}
  else
    {| into_table := qualified; stmt_columns := keys;
       conflict_target := ["id"]; on_conflict := DoUpdateSet columns |}.

(** [execute_values(cur, insert_stmt, data_iter)] then [commit()]: the
    store changes only when every page went through. *)
Definition execute_and_commit (st : insert_stmt) (argslist : list (list pyval)) : M unit :=
  λ w, match execute_values st argslist (db w) with
       | Ret s' => (Ret (), {| db := s'; log := log w; sent := sent w |})
       | Raise e => (Raise e, w)
       end.

Definition insert_on_conflict_update (table : sql_table) (keys : list string)
    (data : list (list pyval)) : M unit :=
  try_except
    (execute_and_commit (build_insert table keys) data)
    (λ e, logging (InsertOnConflictError e)).

(** [data.to_sql(table_name, engine, index=False, if_exists='append',
    schema='etl_project', method=insert_on_conflict_update)]: the table
    object is built from the column labels first, and a label that comes
    twice makes that raise before the insertion method is called; a frame
    without rows sends nothing. *)
Definition to_sql (data : DataFrame) (name : string) : M unit :=
  if negb (bool_decide (NoDup (columns data))) then raise ValueError
  else
    match rows data with
    | [] => ret ()
    | _ => insert_on_conflict_update
             {| table_schema := "etl_project"; table_name := name |}
             (columns data) (data_iter data)
    end.

Definition load (data : option DataFrame) (name : string) : M unit :=
  try_except
    (match data with
     | Some df => to_sql df name
     | None => raise AttributeError
     end;;
     logging (DataLoaded name))
    (λ e, logging (LoadingError name e)).

(** One turn of the [while True] loop of [main]. *)
Definition main_loop_body (pagination : Z) : M loop_control :=
  logging (PaginationIs pagination);;
  extracted <- extract_movies (env_url "movie") "results" pagination;;
  unpacked <- unpack extracted;;
  let '(movie_results, total_pages) := unpacked in
  if truthy movie_results then
    transformed <- transform_movies movie_results;;
    unpacked <- unpack transformed;;
    let '(movies_df, movie_genres_df) := unpacked in
    load (Some movies_df) "movies";;
    load (Some movie_genres_df) "movie_genres";;
    last <- lift (py_ge pagination total_pages);;
    if last : bool then logging ReachedLastPage;; ret Break
    else ret (NextIteration (pagination + 1))
  else ret (NextIteration pagination).

(** The loop, cut after [fuel] turns: [None] says it was still running. *)
Fixpoint main_loop (fuel : nat) (pagination : Z) : M (option unit) :=
  match fuel with
  | O => ret None
  | S fuel' =>
      ctl <- main_loop_body pagination;;
      match ctl with
      | Break => ret (Some ())
      | NextIteration pagination' => main_loop fuel' pagination'
      end
  end.

(** [main], the loop cut after [fuel] turns.  The engine [main] creates
    first only carries the connection settings; the store is the world's. *)
Definition main (fuel : nat) : M (option unit) :=
  genre_results <- extract_genre (env_url "genre") "genres";;
  (if truthy genre_results then
     genre <- transform_genre genre_results;;
     load genre "genres"
   else ret ());;
  finished <- main_loop fuel 1;;
  match finished with
  | Some _ => logging EtlCompleted;; ret (Some ())
  | None => ret None
  end.

End Pipeline.

(** * Vocabulary of the properties *)

(** ** The run, seen from outside *)

(** The page number a request asks for. *)
Definition requested_page (req : request) : option pyval :=
  dict_lookup "page" (req_params req).

(** The pages asked for so far, oldest first; [None] stands for the
    taxonomy request, which names no page. *)
Definition pages_requested (w : world) : list (option pyval) :=
  rev (map requested_page (sent w)).

(** The world with one more line in the log. *)
Definition logged (r : log_record) (w : world) : world :=
  {| db := db w; log := r :: log w; sent := sent w |}.

(** What [main] does before the loop: the taxonomy. *)
Definition genre_stage (env : env_variables) (api : nat → request → option response)
    : M unit :=
  (genre_results <- extract_genre env api (env_url env "genre") "genres";;
   if truthy genre_results then
     genre <- transform_genre genre_results;;
     load genre "genres"
   else ret ())%py.

(** ** Reading the status code by its digits

    The spec's wording of the success test, computed on the number: strip
    trailing digits until two are left. *)
Fixpoint leading_two (fuel : nat) (n : Z) : Z :=
  match fuel with
  | O => n
  | S f => if (n <? 100)%Z then n else leading_two f (n / 10)
  end.

Definition first_two_digits (z : Z) : option Z :=
  if (z <? 10)%Z then None
  else Some (leading_two (S (Z.to_nat (Z.log2 z))) z).

(** ** The loader *)

(** The table keyed by [id] that a name stands for, and the store with
    that table replaced. *)
Definition keyed_table (name : string) (s : store) : gmap Z row :=
  if String.eqb name "genres" then genres s else movies s.

Definition with_keyed_table (name : string) (t : gmap Z row) (s : store) : store :=
  if String.eqb name "genres"
  then {| genres := t; movies := movies s; movie_genres := movie_genres s |}
  else {| genres := genres s; movies := t; movie_genres := movie_genres s |}.

Definition with_movie_genres (t : list (option Z * option Z)) (s : store) : store :=
  {| genres := genres s; movies := movies s; movie_genres := t |}.

(** The statement [load] sends for a frame with the given columns. *)
Definition load_stmt (name : string) (cols : list string) : insert_stmt :=
  build_insert {| table_schema := "etl_project"; table_name := name |} cols.

(** The columns that statement assigns on a conflict: all but [id]. *)
Definition assigned_of (cols : list string) : list string :=
  List.filter (λ key, negb (String.eqb key "id")) cols.

Abbreviation upserts cols := (fold_left (upsert (DoUpdateSet (assigned_of cols)))).

(** A proposed row of a statement over [cols] with identifier [k]. *)
Definition row_for (cols : list string) (kr : Z * row) : Prop :=
  (∀ c, is_Some (kr.2 !! c) ↔ c ∈ cols) ∧ kr.2 !! "id" = Some (PyInt kr.1).

(** The rows a statement on a keyed table proposes, tuple by tuple. *)
Definition proposes (cols : list string) (tuple : list pyval) (kr : Z * row) : Prop :=
  kr.2 = proposed cols tuple ∧ row_id kr.2 = Ret kr.1 ∧ length tuple = length cols.

(** A pair the join table takes from a tuple of a statement over [cols]. *)
Definition proposes_pair (cols : list string) (tuple : list pyval)
    (p : option Z * option Z) : Prop :=
  row_pair (proposed cols tuple) = Ret p ∧ length tuple = length cols.

(** A join relation as the data model has it: both key columns are
    there and no row misses one of them. *)
Definition join_keys_present (df : DataFrame) : bool :=
  has_column "movie_id" df && has_column "genre_id" df &&
  forallb (λ r, notna (cell r "movie_id") && notna (cell r "genre_id")) (rows df).

(** The store [load] leaves behind, and whether the store took the
    statement. *)
Definition store_after_load (df : DataFrame) (name : string) (s : store) : store :=
  match rows df with
  | [] => s
  | _ => match execute_values (load_stmt name (columns df)) (data_iter df) s with
         | Ret s' => s'
         | Raise _ => s
         end
  end.

Definition load_accepted (df : DataFrame) (name : string) (s : store) : bool :=
  match rows df with
  | [] => true
  | _ => match execute_values (load_stmt name (columns df)) (data_iter df) s with
         | Ret _ => true
         | Raise _ => false
         end
  end.

(** ** The entity normaliser, by its parts *)

(** The column labels of the frame built from the records. *)
Definition record_columns (recs : list record) : list string :=
  unique_labels [] (concat (map (map fst) recs)).

(** A record the normaliser keeps: it has an identifier and a
    genre-reference list. *)
Definition valid_record (rec : record) : bool :=
  notna (dict_get rec "id" PyNone) && notna (dict_get rec "genre_ids" PyNone).

(** The rows left after the two [dropna]. *)
Definition kept_rows (recs : list record) : list row :=
  List.filter (λ r, notna (cell r "genre_ids"))
    (List.filter (λ r, notna (cell r "id")) (map row_of_record recs)).

(** The rows of the join frame made from the kept rows. *)
Definition join_rows_of (kept : list row) : list row :=
  List.filter (λ r, notna (cell r "genre_id"))
    (map (λ r, list_to_map [("movie_id", cell r "id");
                            ("genre_id", cell r "genre_ids")])
       (flat_map (λ r, map (λ v, <["genre_ids" := v]> r)
                           (explode_cell (cell r "genre_ids")))
          (map (λ r, list_to_map [("id", cell r "id");
                                  ("genre_ids", cell r "genre_ids")])
               kept))).

(** The rows of the movie frame made from the kept rows and their
    converted dates. *)
Definition movie_rows_of (kept : list row) (dates : list pyval) : list row :=
  map (λ r, foldr delete r excluded_columns)
      (zip_with (λ r v, <["release_date" := v]> r) kept dates).


(** * Sample surroundings and inputs *)

(** ** A date conversion and a configuration

    One instance of the conversion [main] leaves to pandas: it reads ISO
    [YYYY-MM-DD] strings, takes the empty string for NaT and an integer
    for nanoseconds, and raises on anything else. *)

Definition digit_value (c : ascii) : option Z :=
  let n := nat_of_ascii c in
  if (48 <=? n)%nat && (n <=? 57)%nat then Some (Z.of_nat n - 48)%Z else None.

Fixpoint number_of (s : list ascii) (acc : Z) : option Z :=
  match s with
  | [] => Some acc
  | c :: t =>
      match digit_value c with
      | Some d => number_of t (10 * acc + d)%Z
      | None => None
      end
  end.

Definition is_leap (y : Z) : bool :=
  ((y mod 4 =? 0) && negb (y mod 100 =? 0) || (y mod 400 =? 0))%Z.

Definition days_in_month (y m : Z) : Z :=
  if (m =? 2)%Z then (if is_leap y then 29 else 28)
  else if bool_decide (m ∈ [4; 6; 9; 11]%Z) then 30 else 31.

(** Days from 1970-01-01 to the given civil date. *)
Definition days_from_civil (y m d : Z) : Z :=
  let y' := (if (m <=? 2)%Z then y - 1 else y)%Z in
  let era := (y' / 400)%Z in
  let yoe := (y' - era * 400)%Z in
  let mp := ((m + 9) mod 12)%Z in
  let doy := ((153 * mp + 2) / 5 + d - 1)%Z in
  let doe := (yoe * 365 + yoe / 4 - yoe / 100 + doy)%Z in
  (era * 146097 + doe - 719468)%Z.

Definition iso_date (s : string) : option pyval :=
  match list_ascii_of_string s with
  | [y1; y2; y3; y4; "-"%char; m1; m2; "-"%char; d1; d2] =>
      y ← number_of [y1; y2; y3; y4] 0;
      m ← number_of [m1; m2] 0;
      d ← number_of [d1; d2] 0;
      if ((1 <=? m) && (m <=? 12) && (1 <=? d) && (d <=? days_in_month y m))%Z
      then Some (PyTimestamp (days_from_civil y m d * 86400000000000))
      else None
  | [] => Some PyNone
  | _ => None
  end.

Definition iso_to_datetime (v : pyval) : option pyval :=
  match v with
  | PyStr s => iso_date s
  | PyInt ns => Some (PyTimestamp ns)
  | _ => None
  end.

Definition demo_env : env_variables :=
  {| ACCESS_TOKEN := "token";
     url := [("genre", "https://api.example/genre/movie/list");
             ("movie", "https://api.example/discover/movie")] |}.

Definition empty_world : world :=
  {| db := empty_store; log := []; sent := [] |}.

(** ** Records and relations *)

(** A catalog record with every column the normaliser touches. *)
Definition movie_record (id : pyval) (genre_ids : pyval) (release_date : pyval)
    (title : string) : record :=
  [("adult", PyBool false); ("backdrop_path", PyNone);
   ("genre_ids", genre_ids); ("id", id);
   ("original_language", PyStr "en"); ("popularity", PyFloat 5 (-1));
   ("poster_path", PyStr "/p.jpg"); ("release_date", release_date);
   ("title", PyStr title); ("video", PyBool false);
   ("vote_count", PyInt 12)].

Definition genre_record (id : pyval) (name : string) : record :=
  [("id", id); ("name", PyStr name)].

(** A page of the catalog: a sound record, one without identifier, one
    without genre-reference list, one without release date. *)
Definition demo_batch : list record :=
  [movie_record (PyInt 1) (PyList [PyInt 28; PyInt 12]) (PyStr "2020-01-01") "one";
   movie_record PyNone (PyList [PyInt 28]) (PyStr "2020-01-02") "two";
   movie_record (PyInt 3) PyNone (PyStr "2020-01-03") "three";
   movie_record (PyInt 4) (PyList [PyInt 18]) PyNone "four"].

(** A page with a release date that is no date. *)
Definition demo_bad_date_batch : list record :=
  [movie_record (PyInt 1) (PyList [PyInt 28; PyInt 12]) (PyStr "2020-01-01") "one";
   movie_record (PyInt 2) (PyList [PyInt 18]) (PyStr "not-a-date") "two"].


(** The record of the flattening example. *)
Definition demo_flatten_record : record :=
  movie_record (PyInt 9) (PyList [PyInt 1; PyInt 2; PyInt 2; PyNone])
               (PyStr "1999-12-31") "nine".

(** The taxonomy with one record that has no identifier. *)
Definition demo_taxonomy : list record :=
  [genre_record PyNone "Mystery"; genre_record (PyInt 18) "Drama"].

(** A frame given by its column labels and the tuples of its rows. *)
Definition frame_of (cols : list string) (tuples : list (list pyval)) : DataFrame :=
  {| columns := cols; rows := map (proposed cols) tuples |}.

Definition demo_genres : DataFrame :=
  frame_of ["id"; "name"] [[PyInt 5; PyStr "Drama"]; [PyInt 7; PyStr "Comedy"]].

Definition demo_pairs : DataFrame :=
  frame_of ["movie_id"; "genre_id"]
           [[PyInt 9; PyInt 1]; [PyInt 9; PyInt 2]; [PyInt 9; PyInt 2]].

(** A store that already knows genre 5 under another name, and the pair
    (9, 1). *)
Definition demo_store : store :=
  {| genres := {[ 5%Z := {[ "id" := PyInt 5; "name" := PyStr "Dramma";
                            "seen" := PyBool true ]} ]};
     movies := ∅;
     movie_genres := [(Some 9%Z, Some 1%Z)] |}.

Definition demo_world : world :=
  {| db := demo_store; log := []; sent := [] |}.

(** ** Remote APIs *)

Definition genres_body : pyval :=
  PyDict [("genres", PyList [PyDict (genre_record (PyInt 28) "Action");
                             PyDict (genre_record (PyInt 18) "Drama")])].

Definition page_body (results : list record) (total_pages : Z) : pyval :=
  PyDict [("page", PyInt 1); ("results", PyList (map PyDict results));
          ("total_pages", PyInt total_pages)].

Definition ok (body : pyval) : option response :=
  Some {| status_code := 200; json := Some body |}.

(** An API that answers every request alike. *)
Definition always (resp : response) (n : nat) (req : request) : option response :=
  Some resp.

Definition demo_page_two : list (string * pyval) :=
  [("page", PyInt 2);
   ("results", PyList [PyDict (movie_record (PyInt 102) (PyList [PyInt 28])
                                            (PyStr "2020-01-01") "page")]);
   ("total_pages", PyInt 3)].

(** Three pages of one record each. *)
Definition demo_three_pages_api (n : nat) (req : request) : option response :=
  match requested_page req with
  | Some (PyInt p) =>
      ok (page_body [movie_record (PyInt (100 + p)) (PyList [PyInt 28])
                                  (PyStr "2020-01-01") "page"] 3)
  | _ => ok genres_body
  end.

(** Three pages announced; the second comes back without records, every
    time it is asked for. *)
Definition demo_stalling_api (n : nat) (req : request) : option response :=
  match requested_page req with
  | Some (PyInt 2) => ok (page_body [] 3)
  | Some (PyInt p) =>
      ok (page_body [movie_record (PyInt (100 + p)) (PyList [PyInt 28])
                                  (PyStr "2020-01-01") "page"] 3)
  | _ => ok genres_body
  end.

(** Three pages announced; the first holds a release date that is no
    date. *)
Definition demo_bad_date_api (n : nat) (req : request) : option response :=
  match requested_page req with
  | Some (PyInt 1) => ok (page_body demo_bad_date_batch 3)
  | Some (PyInt p) =>
      ok (page_body [movie_record (PyInt (100 + p)) (PyList [PyInt 28])
                                  (PyStr "2020-01-01") "page"] 3)
  | _ => ok genres_body
  end.

(** A success response whose body lacks the data field. *)
Definition demo_missing_field_api (n : nat) (req : request) : option response :=
  ok (PyDict [("page", PyInt 1); ("total_pages", PyInt 3)]).

(** * Vocabulary of the further properties *)

(** A frame with 101 genres, the last of them without identifier. *)
Definition demo_long_genres : DataFrame :=
  frame_of ["id"; "name"]
    (map (λ i, [PyInt (Z.of_nat i); PyStr "genre"]) (seq 1 100)
     ++ [[PyNone; PyStr "nameless"]]).

(** A frame whose only column is the identifier. *)
Definition demo_ids_only : DataFrame :=
  frame_of ["id"] [[PyInt 5]; [PyInt 7]].

(** The columns [transform_movies] reads or drops by name. *)
Definition required_columns : list string :=
  ["id"; "genre_ids"; "release_date";
   "backdrop_path"; "poster_path"; "video"; "adult"].

(** A catalog record that has no [video] key. *)
Definition demo_no_video : record :=
  [("adult", PyBool false); ("backdrop_path", PyNone);
   ("genre_ids", PyList [PyInt 28]); ("id", PyInt 1);
   ("poster_path", PyStr "/p.jpg"); ("release_date", PyStr "2020-01-01");
   ("title", PyStr "one")].

(** The tuples one record contributes to the join frame: its identifier
    with each element of its genre-reference list that is not missing. *)
Definition pairs_of_record (rec : record) : list (list pyval) :=
  map (λ g, [dict_get rec "id" PyNone; g])
      (List.filter notna (explode_cell (dict_get rec "genre_ids" PyNone))).

(** The world after the two [load] of one page. *)
Definition page_loaded (df mg : DataFrame) (w : world) : world :=
  (load (Some mg) "movie_genres" (load (Some df) "movies" w).2).2.

(** A taxonomy none of whose records has an [id] key. *)
Definition demo_taxonomy_without_id : list record :=
  [[("name", PyStr "Action")]; [("name", PyStr "Drama")]].

(** Pages asked for one after the other from page [p] on: the first
    request is for [p], and each later one repeats the page before it or
    asks for the next. *)
Fixpoint climbs (p : Z) (pages : list (option pyval)) : bool :=
  match pages with
  | [] => true
  | Some (PyInt q) :: rest => (q =? p)%Z && (climbs p rest || climbs (p + 1) rest)
  | _ :: _ => false
  end.

(** A catalog whose pages announce a page count that is null. *)
Definition demo_null_total_api (n : nat) (req : request) : option response :=
  ok (PyDict [("page", PyInt 1);
              ("results", PyList [PyDict (movie_record (PyInt 101) (PyList [PyInt 28])
                                                       (PyStr "2020-01-01") "page")]);
              ("total_pages", PyNone)]).

(** * Properties *)

(** ** The success test on the status code *)

Lemma digit_char_2 (d : Z) : (0 <= d < 10)%Z →
  Ascii.eqb "2"%char (digit_char d) = (d =? 2)%Z.
Proof.
  intros H.
  assert (d = 0 ∨ d = 1 ∨ d = 2 ∨ d = 3 ∨ d = 4 ∨ d = 5 ∨ d = 6 ∨ d = 7
          ∨ d = 8 ∨ d = 9)%Z as Hd by lia.
  repeat (destruct Hd as [-> | Hd]; [reflexivity |]). by subst.
Qed.

Lemma digit_char_0 (d : Z) : (0 <= d < 10)%Z →
  Ascii.eqb "0"%char (digit_char d) = (d =? 0)%Z.
Proof.
  intros H.
  assert (d = 0 ∨ d = 1 ∨ d = 2 ∨ d = 3 ∨ d = 4 ∨ d = 5 ∨ d = 6 ∨ d = 7
          ∨ d = 8 ∨ d = 9)%Z as Hd by lia.
  repeat (destruct Hd as [-> | Hd]; [reflexivity |]). by subst.
Qed.

Lemma prefix_20 (a b : ascii) (s : string) :
  String.prefix "20" (String a (String b s)) = Ascii.eqb "2"%char a && Ascii.eqb "0"%char b.
Proof.
  cbn [String.prefix].
  destruct (ascii_dec "2" a) as [<-|Ha].
  - destruct (ascii_dec "0" b) as [<-|Hb]; [by destruct s|].
    rewrite (proj2 (Ascii.eqb_neq _ _) Hb). reflexivity.
  - rewrite (proj2 (Ascii.eqb_neq _ _) Ha). reflexivity.
Qed.

Lemma digits_leading (f : nat) : ∀ (n : Z) (acc : string),
  (10 <= n < 2 ^ Z.of_nat f)%Z →
  String.prefix "20" (digits_of f n acc) = (leading_two f n =? 20)%Z.
Proof.
  induction f as [|f IH]; intros n acc Hn.
  - simpl in Hn. lia.
  - cbn [digits_of leading_two].
    destruct (Z.ltb_spec n 10) as [?|_]; [lia|].
    destruct (Z.ltb_spec n 100) as [Hlt|Hge].
    + destruct f as [|f]; [simpl in Hn; lia|].
      cbn [digits_of].
      destruct (Z.ltb_spec (n / 10) 10) as [_|Hx];
        [|exfalso; apply Z.le_ngt in Hx; apply Hx, Z.div_lt_upper_bound; lia].
      rewrite prefix_20.
      assert (0 <= n / 10 < 10)%Z as H1
        by (split; [apply Z.div_pos; lia | apply Z.div_lt_upper_bound; lia]).
      rewrite (Z.mod_small (n / 10) 10) by lia.
      rewrite digit_char_2 by lia.
      rewrite digit_char_0 by (apply Z.mod_pos_bound; lia).
      pose proof (Z.div_mod n 10 ltac:(lia)).
      pose proof (Z.mod_pos_bound n 10 ltac:(lia)).
      destruct (Z.eqb_spec (n / 10) 2), (Z.eqb_spec (n mod 10) 0),
        (Z.eqb_spec n 20); simpl; try reflexivity; lia.
    + apply IH. split.
      * apply Z.div_le_lower_bound; lia.
      * apply Z.div_lt_upper_bound; [lia|].
        rewrite Nat2Z.inj_succ, Z.pow_succ_r in Hn by lia. lia.
Qed.

Lemma startswith_first_two_digits (z : Z) :
  startswith (str_int z) "20" = true ↔ first_two_digits z = Some 20%Z.
Proof.
  unfold startswith, str_int, first_two_digits.
  destruct (Z.ltb_spec z 0) as [Hneg|Hpos].
  - destruct (Z.ltb_spec z 10) as [_|?]; [|lia].
    cbn. split; discriminate.
  - destruct (Z.ltb_spec z 10) as [Hlt|Hge].
    + cbn [digits_of]. destruct (Z.ltb_spec z 10) as [_|?]; [|lia].
      cbn [String.prefix]. destruct (ascii_dec _ _); split; discriminate.
    + rewrite digits_leading.
      * split; [intros H; f_equal; by apply Z.eqb_eq | intros [= H]; by apply Z.eqb_eq].
      * split; [lia|].
        rewrite Nat2Z.inj_succ, Z2Nat.id by apply Z.log2_nonneg.
        apply Z.log2_spec. lia.
Qed.

(** ** What the extractors return *)

Lemma extract_movies_response env api (w : world) (u data : string) (page : Z)
    (resp : response) :
  api (length (sent w)) (get_request env u (movies_params page)) = Some resp →
  extract_movies env api (Some u) data page w =
    let w' := {| db := db w;
                 log := ApiResponseCode (status_code resp) :: log w;
                 sent := get_request env u (movies_params page) :: sent w |} in
    if startswith (str_int (status_code resp)) "20" then
      match json resp with
      | Some (PyDict body) =>
          (Ret (Some (dict_get body data PyNone,
                      dict_get body "total_pages" (PyInt 1))), w')
      | Some _ =>
          (Ret None, {| db := db w;
                        log := DataExtractionError AttributeError :: log w';
                        sent := sent w' |})
      | None =>
          (Ret None, {| db := db w;
                        log := DataExtractionError JSONDecodeError :: log w';
                        sent := sent w' |})
      end
    else (Ret (Some (PyList [], PyInt 0)), w').
Proof.
  intros Hapi.
  unfold extract_movies, try_except, bind, request_url, rq_request, logging, lift, ret.
  rewrite Hapi. cbn.
  destruct (startswith _ _); [|reflexivity].
  unfold response_json. destruct (json resp) as [[]|]; reflexivity.
Qed.

Lemma extract_genre_response env api (w : world) (u data : string)
    (resp : response) :
  api (length (sent w)) (get_request env u []) = Some resp →
  extract_genre env api (Some u) data w =
    let w' := {| db := db w;
                 log := ApiResponseCode (status_code resp) :: log w;
                 sent := get_request env u [] :: sent w |} in
    if startswith (str_int (status_code resp)) "20" then
      match json resp with
      | Some (PyDict body) => (Ret (dict_get body data PyNone), w')
      | Some _ =>
          (Ret PyNone, {| db := db w;
                          log := DataExtractionError AttributeError :: log w';
                          sent := sent w' |})
      | None =>
          (Ret PyNone, {| db := db w;
                          log := DataExtractionError JSONDecodeError :: log w';
                          sent := sent w' |})
      end
    else (Ret (PyList []), w').
Proof.
  intros Hapi.
  unfold extract_genre, try_except, bind, request_url, rq_request, logging, lift, ret.
  rewrite Hapi. cbn.
  destruct (startswith _ _); [|reflexivity].
  unfold response_json. destruct (json resp) as [[]|]; reflexivity.
Qed.

(** ** The keyed tables: later writes win *)

Lemma lookup_set_excluded (assigned : list string) (excluded old : row) (c : string) :
  set_excluded assigned excluded old !! c =
    if bool_decide (c ∈ assigned) then Some (cell excluded c) else old !! c.
Proof.
  induction assigned as [|a l IH]; cbn [set_excluded foldr].
  - reflexivity.
  - destruct (decide (a = c)) as [->|Hne].
    + rewrite lookup_insert_eq, bool_decide_eq_true_2; [done | left].
    + rewrite lookup_insert_ne by done. fold (set_excluded l excluded old).
      rewrite IH. rewrite (bool_decide_ext (c ∈ a :: l) (c ∈ l)); [done|].
      rewrite elem_of_cons. split; [intros [?|?]; [congruence|done] | by right].
Qed.

Lemma elem_of_assigned (cols : list string) (c : string) :
  c ∈ assigned_of cols ↔ c ∈ cols ∧ c ≠ "id".
Proof.
  unfold assigned_of. rewrite !list_elem_of_In, filter_In, negb_true_iff.
  rewrite String.eqb_neq. reflexivity.
Qed.

Lemma cell_lookup (r : row) (c : string) (v : pyval) :
  r !! c = Some v → cell r c = v.
Proof. unfold cell. by intros ->. Qed.

Lemma set_excluded_twice (asg : list string) (a b x : row) :
  set_excluded asg a (set_excluded asg b x) = set_excluded asg a x.
Proof.
  apply map_eq. intros c. rewrite !lookup_set_excluded.
  by case_bool_decide.
Qed.

Lemma set_excluded_same_key (cols : list string) (k : Z) (a b : row) :
  row_for cols (k, a) → row_for cols (k, b) →
  set_excluded (assigned_of cols) a b = a.
Proof.
  intros [Ha Hka] [Hb Hkb]. cbn in *.
  apply map_eq. intros c. rewrite lookup_set_excluded.
  case_bool_decide as Hc.
  - apply elem_of_assigned in Hc as [Hc _]. apply Ha in Hc as [v Hv].
    by rewrite (cell_lookup _ _ _ Hv).
  - destruct (decide (c = "id")) as [->|Hid]; [congruence|].
    assert (c ∉ cols) as Hn by (intros ?; apply Hc, elem_of_assigned; done).
    destruct (a !! c) eqn:Ea; [exfalso; apply Hn, Ha; eauto|].
    destruct (b !! c) eqn:Eb; [exfalso; apply Hn, Hb; eauto|]. done.
Qed.

Lemma upsert_same_key (cols : list string) (k : Z) (a b : row) (t : gmap Z row) :
  row_for cols (k, a) → row_for cols (k, b) →
  upsert (DoUpdateSet (assigned_of cols))
         (upsert (DoUpdateSet (assigned_of cols)) t (k, b)) (k, a)
  = upsert (DoUpdateSet (assigned_of cols)) t (k, a).
Proof.
  intros Ha Hb. unfold upsert. cbn.
  destruct (t !! k) as [old|] eqn:Et.
  - rewrite lookup_insert_eq, insert_insert_eq. by rewrite set_excluded_twice.
  - rewrite lookup_insert_eq, insert_insert_eq.
    by rewrite (set_excluded_same_key cols k a b).
Qed.

Lemma upsert_comm (act : conflict_action) (ka kb : Z) (a b : row) (t : gmap Z row) :
  ka ≠ kb →
  upsert act (upsert act t (ka, a)) (kb, b) = upsert act (upsert act t (kb, b)) (ka, a).
Proof.
  intros Hne. unfold upsert. cbn.
  destruct (t !! ka) as [oa|] eqn:Ea, (t !! kb) as [ob|] eqn:Eb, act;
    repeat (rewrite ?lookup_insert_ne by done; rewrite ?Ea, ?Eb);
    try reflexivity; by rewrite insert_insert_ne.
Qed.

(** Writing a row, then other rows, then the same row again: the first
    write is lost. *)
Lemma upserts_rewrite (cols : list string) (a : Z * row) (l : list (Z * row)) :
  ∀ t, row_for cols a → Forall (row_for cols) l →
  upserts cols (a :: l ++ [a]) t = upserts cols (l ++ [a]) t.
Proof.
  induction l as [|b l IH]; intros t Ha Hl.
  - destruct a as [k a]. cbn. by apply (upsert_same_key cols).
  - inversion Hl as [|? ? Hb Hl']; subst.
    destruct a as [ka a], b as [kb b].
    destruct (decide (ka = kb)) as [->|Hne].
    + cbn [fold_left app]. by rewrite (upsert_same_key cols kb b a).
    + cbn [fold_left app]. rewrite upsert_comm by done.
      apply (IH (upsert _ t (kb, b))); done.
Qed.

Lemma upserts_absorb (cols : list string) (l : list (Z * row)) :
  ∀ (m : list (Z * row)) t, Forall (row_for cols) l → Forall (row_for cols) m →
  upserts cols (l ++ m ++ l) t = upserts cols (m ++ l) t.
Proof.
  induction l as [|a l IH]; intros m t Hl Hm.
  - by rewrite !app_nil_r.
  - inversion Hl as [|? ? Ha Hl']; subst.
    replace ((a :: l) ++ m ++ a :: l) with ((a :: (l ++ m) ++ [a]) ++ l)
      by (cbn; by rewrite <- !app_assoc).
    rewrite (fold_left_app _ (a :: (l ++ m) ++ [a])).
    rewrite upserts_rewrite; [|done|by apply Forall_app].
    rewrite <- fold_left_app.
    replace (((l ++ m) ++ [a]) ++ l) with (l ++ (m ++ [a]) ++ l)
      by (by rewrite <- !app_assoc).
    rewrite (IH (m ++ [a])); [|done|].
    + by rewrite <- app_assoc.
    + apply Forall_app. split; [done|]. by constructor.
Qed.

Lemma upserts_idempotent (cols : list string) (l : list (Z * row)) (t : gmap Z row) :
  Forall (row_for cols) l →
  upserts cols l (upserts cols l t) = upserts cols l t.
Proof.
  intros Hl.
  pose proof (upserts_absorb cols l [] t Hl ltac:(constructor)) as H.
  cbn [app] in H. by rewrite fold_left_app in H.
Qed.

(** ** What a statement proposes *)

Lemma proposed_lookup (cols : list string) (tuple : list pyval) (c : string) :
  length tuple = length cols →
  is_Some (proposed cols tuple !! c) ↔ c ∈ cols.
Proof.
  intros Hlen. unfold proposed.
  rewrite <- not_eq_None_Some, <- not_elem_of_list_to_map.
  rewrite fst_zip by lia. split; [apply dec_stable | tauto].
Qed.

Lemma row_id_lookup (r : row) (k : Z) :
  row_id r = Ret k → r !! "id" = Some (PyInt k).
Proof.
  unfold row_id, cell. destruct (r !! "id") as [[]|]; cbn; congruence.
Qed.

Lemma zip_proposes (cols : list string) (page : list (list pyval)) :
  ∀ ks : list Z,
  res_mapM row_id (map (proposed cols) page) = Ret ks →
  forallb (λ t, Nat.eqb (length t) (length cols)) page = true →
  Forall2 (proposes cols) page (zip ks (map (proposed cols) page)).
Proof.
  induction page as [|t page IH]; intros ks Hks Hlen.
  - injection Hks as <-. constructor.
  - cbn in Hks, Hlen. apply andb_true_iff in Hlen as [Ht Hlen].
    destruct (row_id (proposed cols t)) as [k|] eqn:Ek; [|done].
    destruct (res_mapM row_id (map (proposed cols) page)) as [ks'|] eqn:Eks; [|done].
    injection Hks as <-. cbn. constructor; [|by apply IH].
    repeat split; cbn; [done|]. by apply Nat.eqb_eq.
Qed.

Lemma check_syntax_None (st : insert_stmt) (page : list (list pyval)) :
  check_syntax st page = None →
  stmt_columns st ≠ [] ∧ NoDup (stmt_columns st) ∧
  forallb (λ t, Nat.eqb (length t) (length (stmt_columns st))) page = true ∧
  on_conflict st ≠ DoUpdateSet [].
Proof.
  unfold check_syntax.
  case_bool_decide as H1; [done|].
  destruct (on_conflict st) as [|[|]] eqn:Hact; try done;
    case_bool_decide as H2; try done; cbn;
    destruct (forallb _ page); try done; intros _; repeat split; done.
Qed.

Lemma keyed_rows_proposes (st : insert_stmt) (page : list (list pyval))
    (krs : list (Z * row)) :
  keyed_rows st page = Ret krs →
  Forall2 (proposes (stmt_columns st)) page krs.
Proof.
  unfold keyed_rows.
  destruct (check_syntax st page) eqn:Hsyn; [done|].
  apply check_syntax_None in Hsyn as (_ & _ & Hlen & _).
  destruct (negb _); [done|]. cbn zeta.
  destruct (res_mapM row_id _) as [ks|] eqn:Hks; [|done].
  destruct (match on_conflict st with DoNothing => _ | _ => _ end); [|done].
  intros [= <-]. by apply zip_proposes.
Qed.

Lemma proposes_row_for (cols : list string) (tuple : list pyval) (kr : Z * row) :
  proposes cols tuple kr → row_for cols kr.
Proof.
  destruct kr as [k r]. intros (Hr & Hid & Hlen). cbn in *. subst r. split; cbn.
  - intros c. by apply proposed_lookup.
  - by apply row_id_lookup.
Qed.

(** ** Pages of one statement *)

Section Pages.
Context {T X : Type}.
Variable st : insert_stmt.
Variable proposal : list (list pyval) → res (list X).
Variable step : T → X → T.
Variable get : store → T.
Variable put : T → store → store.
Hypothesis Hexec : ∀ page s,
  cur_execute st page s =
    match proposal page with
    | Raise e => Raise e
    | Ret xs => Ret (put (fold_left step xs (get s)) s)
    end.
Hypothesis get_put : ∀ t s, get (put t s) = t.
Hypothesis put_put : ∀ t t' s, put t (put t' s) = put t s.
Hypothesis put_get : ∀ s, put (get s) s = s.

Lemma execute_pages_effect (pages : list (list (list pyval))) :
  ∀ s, execute_pages st pages s =
    match res_mapM proposal pages with
    | Raise e => Raise e
    | Ret xss => Ret (put (fold_left step (concat xss) (get s)) s)
    end.
Proof.
  induction pages as [|p pages IH]; intros s; cbn.
  - by rewrite put_get.
  - rewrite Hexec. destruct (proposal p) as [xs|]; [|done].
    rewrite IH. destruct (res_mapM proposal pages) as [xss|]; [|done].
    cbn. by rewrite fold_left_app, get_put, put_put.
Qed.
End Pages.

Lemma concat_paginate {A} (fuel : nat) :
  ∀ l : list A, (length l ≤ fuel)%nat → concat (paginate fuel l) = l.
Proof.
  induction fuel as [|fuel IH]; intros [|x l] Hlen; cbn in *; try done; [lia|].
  f_equal. rewrite IH.
  - apply (take_drop 99).
  - rewrite length_drop. lia.
Qed.

Lemma load_stmt_keyed (name : string) (cols : list string) :
  String.eqb name "movie_genres" = false →
  load_stmt name cols =
    {| into_table := "etl_project." +:+ name; stmt_columns := cols;
       conflict_target := ["id"];
       on_conflict := DoUpdateSet (assigned_of cols) |}.
Proof. unfold load_stmt, build_insert. cbn. by intros ->. Qed.

Lemma execute_values_keyed (name : string) (cols : list string)
    (argslist : list (list pyval)) (s : store) :
  name = "genres" ∨ name = "movies" →
  execute_values (load_stmt name cols) argslist s =
    match res_mapM (keyed_rows (load_stmt name cols))
                   (paginate (length argslist) argslist) with
    | Raise e => Raise e
    | Ret krss =>
        Ret (with_keyed_table name
               (upserts cols (concat krss) (keyed_table name s)) s)
    end.
Proof.
  intros Hname. unfold execute_values.
  apply (execute_pages_effect (load_stmt name cols)
           (keyed_rows (load_stmt name cols))
           (upsert (DoUpdateSet (assigned_of cols)))
           (keyed_table name) (with_keyed_table name)).
  - intros page s0. rewrite load_stmt_keyed by (by destruct Hname as [-> | ->]).
    unfold cur_execute, exec_keyed. cbn [into_table on_conflict].
    destruct Hname as [-> | ->]; cbn -[keyed_rows];
      by destruct (keyed_rows _ page).
  - intros t s0. by destruct Hname as [-> | ->].
  - intros t t' s0. by destruct Hname as [-> | ->].
  - intros [? ? ?]. by destruct Hname as [-> | ->].
Qed.

Lemma res_mapM_concat {A B} (P : A → B → Prop) (proposal : list A → res (list B))
    (pages : list (list A)) :
  (∀ page xs, proposal page = Ret xs → Forall2 P page xs) →
  ∀ xss, res_mapM proposal pages = Ret xss →
  Forall2 P (concat pages) (concat xss).
Proof.
  intros HP. induction pages as [|p pages IH]; intros xss; cbn.
  - intros [= <-]. constructor.
  - destruct (proposal p) as [xs|] eqn:Ep; [|done].
    destruct (res_mapM proposal pages) as [xss'|]; [|done].
    intros [= <-]. cbn. apply Forall2_app; [by apply HP | by apply IH].
Qed.

Lemma join_pairs_proposes (st : insert_stmt) (page : list (list pyval))
    (ps : list (option Z * option Z)) :
  join_pairs st page = Ret ps →
  Forall2 (proposes_pair (stmt_columns st)) page ps.
Proof.
  unfold join_pairs.
  destruct (check_syntax st page) eqn:Hsyn; [done|].
  apply check_syntax_None in Hsyn as (_ & _ & Hlen & _).
  destruct (negb _); [done|]. destruct (negb _); [done|].
  destruct (res_mapM row_pair _) as [ps'|] eqn:Hps; [|done].
  destruct (match on_conflict st with DoNothing => _ | _ => _ end); [|done].
  intros [= <-]. clear -Hps Hlen. revert ps' Hps Hlen.
  generalize (stmt_columns st) as cols. intros cols.
  induction page as [|t page IH]; intros ps Hps Hlen; cbn in *.
  - injection Hps as <-. constructor.
  - apply andb_true_iff in Hlen as [Ht Hlen].
    destruct (row_pair (proposed cols t)) as [p|] eqn:Ep; [|done].
    destruct (res_mapM row_pair _) as [ps'|] eqn:Eps; [|done].
    injection Hps as <-. constructor; [|by apply IH].
    split; [done | by apply Nat.eqb_eq].
Qed.

Lemma execute_values_join (cols : list string) (argslist : list (list pyval))
    (s : store) :
  execute_values (load_stmt "movie_genres" cols) argslist s =
    match res_mapM (join_pairs (load_stmt "movie_genres" cols))
                   (paginate (length argslist) argslist) with
    | Raise e => Raise e
    | Ret pss =>
        Ret (with_movie_genres
               (fold_left insert_pair (concat pss) (movie_genres s)) s)
    end.
Proof.
  unfold execute_values.
  apply (execute_pages_effect (load_stmt "movie_genres" cols)
           (join_pairs (load_stmt "movie_genres" cols))
           insert_pair movie_genres with_movie_genres).
  - intros page s0. unfold cur_execute, exec_join. cbn -[join_pairs].
    by destruct (join_pairs _ page).
  - done.
  - done.
  - by intros [? ? ?].
Qed.

Lemma execute_values_unknown (name : string) (cols : list string)
    (argslist : list (list pyval)) (s : store) :
  name ≠ "genres" → name ≠ "movies" → name ≠ "movie_genres" →
  argslist ≠ [] →
  ∃ e, execute_values (load_stmt name cols) argslist s = Raise e.
Proof.
  intros H1 H2 H3 Hne. unfold execute_values.
  destruct argslist as [|a l]; [done|]. cbn [length paginate execute_pages].
  unfold cur_execute.
  assert (into_table (load_stmt name cols) = "etl_project." +:+ name) as ->.
  { unfold load_stmt, build_insert. cbn. by destruct (String.eqb name _). }
  change (String.eqb ("etl_project." +:+ name) "etl_project.genres")
    with (String.eqb name "genres").
  change (String.eqb ("etl_project." +:+ name) "etl_project.movies")
    with (String.eqb name "movies").
  change (String.eqb ("etl_project." +:+ name) "etl_project.movie_genres")
    with (String.eqb name "movie_genres").
  apply String.eqb_neq in H1, H2, H3. rewrite H1, H2, H3. eauto.
Qed.

(** ** What [load] does to the world *)

Lemma load_some (df : DataFrame) (name : string) (w : world) :
  NoDup (columns df) →
  load (Some df) name w =
    (Ret (),
     {| db := store_after_load df name (db w);
        log := DataLoaded name ::
               match rows df with
               | [] => log w
               | _ => match execute_values (load_stmt name (columns df))
                                           (data_iter df) (db w) with
                      | Ret _ => log w
                      | Raise e => InsertOnConflictError e :: log w
                      end
               end;
        sent := sent w |}).
Proof.
  intros Hnd.
  unfold load, store_after_load, try_except, bind, to_sql, logging, ret.
  rewrite (bool_decide_eq_true_2 _ Hnd). cbn [negb].
  destruct (rows df) as [|r rs]; [done|].
  unfold insert_on_conflict_update, try_except, execute_and_commit, logging.
  fold (load_stmt name (columns df)).
  by destruct (execute_values _ _ (db w)).
Qed.

(** A frame with a repeated column label never gets to the insertion
    method: [to_sql] raises and [load] logs the loading error. *)
Lemma load_repeated_label (df : DataFrame) (name : string) (w : world) :
  ¬ NoDup (columns df) →
  load (Some df) name w =
    (Ret (), {| db := db w; log := LoadingError name ValueError :: log w;
                sent := sent w |}).
Proof.
  intros Hdup. unfold load, try_except, bind, to_sql, raise, logging.
  by rewrite (bool_decide_eq_false_2 _ Hdup).
Qed.

Lemma stmt_columns_load_stmt (name : string) (cols : list string) :
  stmt_columns (load_stmt name cols) = cols.
Proof. unfold load_stmt, build_insert. cbn. by destruct (String.eqb name _). Qed.

Lemma cur_execute_repeated_label (st : insert_stmt) (page : list (list pyval))
    (s : store) :
  ¬ NoDup (stmt_columns st) → ∃ e, cur_execute st page s = Raise e.
Proof.
  intros Hdup.
  assert (∃ e, check_syntax st page = Some e) as [e He].
  { destruct (check_syntax st page) as [e|] eqn:E; [by exists e|].
    by apply check_syntax_None in E as (_ & ? & _). }
  unfold cur_execute, exec_keyed, keyed_rows, exec_join, join_pairs. rewrite He.
  repeat (destruct (String.eqb _ _)); by eexists.
Qed.

Lemma store_after_load_repeated_label (df : DataFrame) (name : string) (s : store) :
  ¬ NoDup (columns df) → store_after_load df name s = s.
Proof.
  intros Hdup. unfold store_after_load.
  destruct (rows df) as [|r0 rs0] eqn:Hrows; [done|].
  unfold execute_values, data_iter. rewrite Hrows.
  cbn [map length paginate execute_pages].
  destruct (cur_execute_repeated_label (load_stmt name (columns df))
              (take page_size (map (cell r0) (columns df)
                               :: map (λ r, map (cell r) (columns df)) rs0)) s)
    as [e ->]; [by rewrite stmt_columns_load_stmt | done].
Qed.

Lemma load_none (name : string) (w : world) :
  load None name w =
    (Ret (), {| db := db w; log := LoadingError name AttributeError :: log w;
                sent := sent w |}).
Proof. reflexivity. Qed.

Lemma load_db (data : option DataFrame) (name : string) (w : world) :
  db (load data name w).2 =
    match data with
    | Some df => store_after_load df name (db w)
    | None => db w
    end.
Proof.
  destruct data as [df|]; [|done].
  destruct (decide (NoDup (columns df))) as [Hnd|Hdup].
  - by rewrite load_some.
  - by rewrite load_repeated_label, store_after_load_repeated_label.
Qed.

Lemma load_returns (data : option DataFrame) (name : string) (w : world) :
  (load data name w).1 = Ret ().
Proof.
  destruct data as [df|]; [|done].
  destruct (decide (NoDup (columns df))); [by rewrite load_some|].
  by rewrite load_repeated_label.
Qed.

Lemma load_sent (data : option DataFrame) (name : string) (w : world) :
  sent (load data name w).2 = sent w.
Proof.
  destruct data as [df|]; [|done].
  destruct (decide (NoDup (columns df))); [by rewrite load_some|].
  by rewrite load_repeated_label.
Qed.

(** ** The join table: a stored pair stays single *)

Lemma insert_pair_stored (t : list (option Z * option Z)) (p : option Z * option Z) :
  pair_is_key p = true → p ∈ t → insert_pair t p = t.
Proof.
  intros Hk Hin. unfold insert_pair. by rewrite Hk, bool_decide_eq_true_2.
Qed.

Lemma insert_pair_keeps (t : list (option Z * option Z)) (p q : option Z * option Z) :
  q ∈ t → q ∈ insert_pair t p.
Proof.
  intros Hq. unfold insert_pair. destruct (_ && _); [done|].
  apply elem_of_app. by left.
Qed.

Lemma insert_pair_has (t : list (option Z * option Z)) (p : option Z * option Z) :
  p ∈ insert_pair t p.
Proof.
  unfold insert_pair. destruct (pair_is_key p); cbn.
  - case_bool_decide; [done|]. apply elem_of_app. right. by left.
  - apply elem_of_app. right. by left.
Qed.

Lemma insert_pairs_keep (ps : list (option Z * option Z)) :
  ∀ t q, q ∈ t → q ∈ fold_left insert_pair ps t.
Proof.
  induction ps as [|p ps IH]; intros t q Hq; cbn; [done|].
  by apply IH, insert_pair_keeps.
Qed.

Lemma insert_pairs_stored (ps : list (option Z * option Z)) :
  ∀ t, Forall (λ p, pair_is_key p = true) ps → (∀ p, p ∈ ps → p ∈ t) →
  fold_left insert_pair ps t = t.
Proof.
  induction ps as [|p ps IH]; intros t Hk Hin; cbn; [done|].
  inversion Hk as [|? ? Hp Hps]; subst.
  rewrite insert_pair_stored; [|done|apply Hin; by left].
  apply IH; [done|]. intros q Hq. apply Hin. by right.
Qed.

Lemma insert_pairs_have (ps : list (option Z * option Z)) :
  ∀ t p, p ∈ ps → p ∈ fold_left insert_pair ps t.
Proof.
  induction ps as [|q ps IH]; intros t p Hp; cbn; [by apply elem_of_nil in Hp|].
  apply elem_of_cons in Hp as [->|Hp].
  - apply insert_pairs_keep, insert_pair_has.
  - by apply IH.
Qed.

Lemma insert_pairs_idempotent (ps t : list (option Z * option Z)) :
  Forall (λ p, pair_is_key p = true) ps →
  fold_left insert_pair ps (fold_left insert_pair ps t) = fold_left insert_pair ps t.
Proof.
  intros Hk. apply insert_pairs_stored; [done|].
  intros p Hp. by apply insert_pairs_have.
Qed.

(** ** From the rows of a frame to what the statement proposes *)

Lemma proposed_data_cell (cols : list string) (r : row) (c : string) :
  c ∈ cols → proposed cols (map (cell r) cols) !! c = Some (cell r c).
Proof.
  unfold proposed. induction cols as [|c' cols IH]; intros Hc.
  - by apply elem_of_nil in Hc.
  - cbn. destruct (decide (c' = c)) as [->|Hne].
    + by rewrite lookup_insert_eq.
    + rewrite lookup_insert_ne by done. apply IH.
      apply elem_of_cons in Hc as [?|?]; [congruence|done].
Qed.

Lemma proposed_cell (cols : list string) (r : row) (c : string) :
  c ∈ cols → cell (proposed cols (map (cell r) cols)) c = cell r c.
Proof. intros Hc. apply cell_lookup. by apply proposed_data_cell. Qed.

Lemma data_iter_tuples (df : DataFrame) (tuple : list pyval) :
  tuple ∈ data_iter df → ∃ r, r ∈ rows df ∧ tuple = map (cell r) (columns df).
Proof.
  unfold data_iter. rewrite list_elem_of_In, in_map_iff.
  intros (r & <- & Hr). exists r. by rewrite list_elem_of_In.
Qed.

Lemma key_cell_notna (v : pyval) (k : option Z) :
  key_cell v = Ret k → notna v = true → is_Some k.
Proof. destruct v; cbn; intros [= <-]; eauto; done. Qed.

Lemma join_keys_pairs (df : DataFrame) (ps : list (option Z * option Z)) :
  join_keys_present df = true →
  Forall2 (proposes_pair (columns df)) (data_iter df) ps →
  Forall (λ p, pair_is_key p = true) ps.
Proof.
  unfold join_keys_present, has_column.
  intros [[Hm%bool_decide_eq_true Hg%bool_decide_eq_true]%andb_true_iff
            Hrows]%andb_true_iff.
  rewrite forallb_forall in Hrows.
  intros H2. eapply Forall2_Forall_r; [exact H2|].
  apply Forall_forall. intros tuple Htuple p [Hprop _].
  apply data_iter_tuples in Htuple as (r & Hr & ->).
  apply list_elem_of_In, Hrows, andb_true_iff in Hr as [Hmn Hgn].
  unfold row_pair in Hprop.
  rewrite !proposed_cell in Hprop by done.
  destruct (key_cell (cell r "movie_id")) as [m|] eqn:Em; [|done].
  destruct (key_cell (cell r "genre_id")) as [g|] eqn:Eg; [|done].
  injection Hprop as <-.
  destruct (key_cell_notna _ _ Em Hmn) as [? ->].
  by destruct (key_cell_notna _ _ Eg Hgn) as [? ->].
Qed.

Lemma proposes_rows_for (cols : list string) (page : list (list pyval))
    (krs : list (Z * row)) :
  Forall2 (proposes cols) page krs → Forall (row_for cols) krs.
Proof.
  induction 1; constructor; [by eapply proposes_row_for | done].
Qed.

Lemma data_iter_nil (df : DataFrame) : data_iter df = [] → rows df = [].
Proof. unfold data_iter. by destruct (rows df). Qed.

Lemma store_after_load_keyed_idempotent (df : DataFrame) (name : string) (s : store) :
  name = "genres" ∨ name = "movies" →
  store_after_load df name (store_after_load df name s) = store_after_load df name s.
Proof.
  intros Hk. unfold store_after_load.
  destruct (rows df) as [|r0 rs0] eqn:Hrows; [done|].
  rewrite !execute_values_keyed by done.
  destruct (res_mapM _ _) as [krss|] eqn:Hkrss.
  - assert (Forall (row_for (columns df)) (concat krss)) as Hwf.
    { eapply proposes_rows_for.
      eapply res_mapM_concat; [|exact Hkrss].
      intros page xs Hx. apply keyed_rows_proposes in Hx.
      rewrite load_stmt_keyed in Hx by (by destruct Hk as [-> | ->]). exact Hx. }
    destruct Hk as [-> | ->]; cbn; by rewrite upserts_idempotent.
  - done.
Qed.

Lemma store_after_load_idempotent (df : DataFrame) (name : string) (s : store) :
  (name = "movie_genres" → join_keys_present df = true) →
  store_after_load df name (store_after_load df name s) = store_after_load df name s.
Proof.
  intros Hjoin.
  destruct (decide (name = "genres")) as [Hg|Hg];
    [apply store_after_load_keyed_idempotent; by left|].
  destruct (decide (name = "movies")) as [Hm|Hm];
    [apply store_after_load_keyed_idempotent; by right|].
  unfold store_after_load.
  destruct (rows df) as [|r0 rs0] eqn:Hrows; [done|].
  destruct (decide (name = "movie_genres")) as [->|Hmg].
  - rewrite !execute_values_join.
    destruct (res_mapM _ _) as [pss|] eqn:Hpss.
    + cbn. rewrite insert_pairs_idempotent; [done|].
      apply (join_keys_pairs df); [by apply Hjoin|].
      rewrite <- (concat_paginate (length (data_iter df)) (data_iter df)) at 1 by done.
      apply (res_mapM_concat _ _ _ (join_pairs_proposes _) _ Hpss).
    + done.
  - assert (data_iter df ≠ []) as Hne
      by (intros Hd%data_iter_nil; congruence).
    destruct (execute_values_unknown name (columns df) (data_iter df) s)
      as [e He]; try done.
    rewrite He.
    destruct (execute_values_unknown name (columns df) (data_iter df) s)
      as [e' He']; try done.
    by rewrite He'.
Qed.

Lemma insert_pairs_append (ps : list (option Z * option Z)) :
  ∀ t, ∃ news,
    fold_left insert_pair ps t = t ++ news ∧
    (∀ p, p ∈ news → pair_is_key p = true → p ∉ t) ∧
    NoDup (List.filter pair_is_key news).
Proof.
  induction ps as [|p ps IH]; intros t; cbn [fold_left].
  - exists []. rewrite app_nil_r. repeat split; [|constructor].
    intros p Hp. by apply elem_of_nil in Hp.
  - unfold insert_pair at 2.
    destruct (pair_is_key p && bool_decide (p ∈ t)) eqn:Hp; [apply IH|].
    destruct (IH (t ++ [p])) as (news & Hfold & Hfresh & Hnodup).
    exists (p :: news). rewrite Hfold, <- app_assoc. repeat split.
    + intros q [->|Hq]%elem_of_cons Hkey.
      * rewrite Hkey in Hp. cbn in Hp. by apply bool_decide_eq_false in Hp.
      * intros Hin. apply (Hfresh q Hq Hkey), elem_of_app. by left.
    + cbn. destruct (pair_is_key p) eqn:Hkey; [|done].
      constructor; [|done].
      rewrite list_elem_of_In, filter_In, <- list_elem_of_In.
      intros [Hq _]. apply (Hfresh p Hq Hkey), elem_of_app. right. by left.
Qed.

(** ** The keyed tables: what a conflicting row becomes *)

Lemma upserts_lookup_other (cols : list string) (krs : list (Z * row)) (k : Z) :
  ∀ t, Forall (λ kr, kr.1 ≠ k) krs → upserts cols krs t !! k = t !! k.
Proof.
  induction krs as [|[k' r] krs IH]; intros t Hk; cbn [fold_left]; [done|].
  inversion Hk as [|? ? Hne Hk']; subst. cbn in Hne.
  rewrite IH by done. unfold upsert. cbn.
  destruct (t !! k'); by rewrite lookup_insert_ne.
Qed.

Lemma upserts_lookup_stored (cols : list string) (krs : list (Z * row)) (k : Z) :
  ∀ t old, t !! k = Some old →
  ∃ new, upserts cols krs t !! k = Some new ∧
         ∀ c, c ∉ assigned_of cols → new !! c = old !! c.
Proof.
  induction krs as [|[k' r] krs IH]; intros t old Hold; cbn [fold_left].
  - by exists old.
  - destruct (decide (k' = k)) as [->|Hne].
    + destruct (IH (upsert (DoUpdateSet (assigned_of cols)) t (k, r))
                   (set_excluded (assigned_of cols) r old)) as (new & Hnew & Hsame).
      { unfold upsert. cbn. by rewrite Hold, lookup_insert_eq. }
      exists new. split; [done|]. intros c Hc. rewrite Hsame by done.
      rewrite lookup_set_excluded. by rewrite bool_decide_eq_false_2.
    + apply IH. unfold upsert. cbn.
      destruct (t !! k'); by rewrite lookup_insert_ne.
Qed.

Lemma upserts_lookup_last (cols : list string) (before after : list (Z * row))
    (k : Z) (r : row) (t : gmap Z row) (old : row) :
  t !! k = Some old → Forall (λ kr, kr.1 ≠ k) after →
  ∃ new, upserts cols (before ++ (k, r) :: after) t !! k = Some new ∧
         (∀ c, c ∈ assigned_of cols → new !! c = Some (cell r c)) ∧
         (∀ c, c ∉ assigned_of cols → new !! c = old !! c).
Proof.
  intros Hold Hafter.
  destruct (upserts_lookup_stored cols before k t old Hold) as (mid & Hmid & Hsame).
  exists (set_excluded (assigned_of cols) r mid).
  rewrite fold_left_app. cbn [fold_left].
  rewrite upserts_lookup_other by done.
  unfold upsert at 1. cbn. rewrite Hmid, lookup_insert_eq.
  split; [done|]. split; intros c Hc; rewrite lookup_set_excluded.
  - by rewrite bool_decide_eq_true_2.
  - rewrite bool_decide_eq_false_2 by done. by apply Hsame.
Qed.

Lemma proposes_id (cols : list string) (r : row) (kr : Z * row) :
  proposes cols (map (cell r) cols) kr →
  cell r "id" = PyInt kr.1 ∧ kr.2 = proposed cols (map (cell r) cols).
Proof.
  intros Hp. pose proof (proposes_row_for _ _ _ Hp) as [Hdom Hid].
  destruct Hp as (Hr & _ & _). split; [|done].
  assert ("id" ∈ cols) as Hin by (apply Hdom; eauto).
  rewrite Hr in Hid. rewrite proposed_data_cell in Hid by done. congruence.
Qed.

Lemma load_accepted_keyed (df : DataFrame) (name : string) (s : store) :
  name = "genres" ∨ name = "movies" →
  load_accepted df name s = true →
  ∃ krs, Forall2 (proposes (columns df)) (data_iter df) krs ∧
         ∀ s', store_after_load df name s' =
               with_keyed_table name
                 (upserts (columns df) krs (keyed_table name s')) s'.
Proof.
  intros Hk. unfold load_accepted, store_after_load.
  destruct (rows df) as [|r0 rs0] eqn:Hrows.
  - intros _. exists []. unfold data_iter. rewrite Hrows. split; [constructor|].
    intros [? ? ?]. by destruct Hk as [-> | ->].
  - rewrite execute_values_keyed by done.
    destruct (res_mapM _ _) as [krss|] eqn:Hkrss; [intros _|done].
    exists (concat krss). split.
    + rewrite <- (concat_paginate (length (data_iter df)) (data_iter df)) at 1 by done.
      eapply res_mapM_concat; [|exact Hkrss].
      intros page xs Hx. apply keyed_rows_proposes in Hx.
      rewrite load_stmt_keyed in Hx by (by destruct Hk as [-> | ->]). exact Hx.
    + intros s'. by rewrite execute_values_keyed, Hkrss.
Qed.

Lemma load_accepted_join (df : DataFrame) (s : store) :
  load_accepted df "movie_genres" s = true →
  ∃ ps, Forall2 (proposes_pair (columns df)) (data_iter df) ps ∧
        ∀ s', load_accepted df "movie_genres" s' = true ∧
              store_after_load df "movie_genres" s' =
                with_movie_genres (fold_left insert_pair ps (movie_genres s')) s'.
Proof.
  unfold load_accepted, store_after_load.
  destruct (rows df) as [|r0 rs0] eqn:Hrows.
  - intros _. exists []. unfold data_iter. rewrite Hrows. split; [constructor|].
    by intros [? ? ?].
  - rewrite execute_values_join.
    destruct (res_mapM _ _) as [pss|] eqn:Hpss; [intros _|done].
    exists (concat pss). split.
    + rewrite <- (concat_paginate (length (data_iter df)) (data_iter df)) at 1 by done.
      apply (res_mapM_concat _ _ _ (join_pairs_proposes _) _ Hpss).
    + intros s'. by rewrite execute_values_join, Hpss.
Qed.

(** ** Idempotence of the loader *)

(** C1. Loading a relation twice leaves the store as loading it once
    does, whichever table the name selects: the two tables keyed by [id]
    with their update-on-conflict rule, the join table with its
    do-nothing rule, for every relation and every store.  A join relation
    is taken as the data model has it, with both key columns filled. *)
Theorem load_idempotent (df : DataFrame) (name : string) (w : world) :
  (name = "movie_genres" → join_keys_present df = true) →
  db (load (Some df) name (load (Some df) name w).2).2
  = db (load (Some df) name w).2.
Proof.
  intros Hjoin. rewrite !load_db. by apply store_after_load_idempotent.
Qed.

Lemma load_idempotent_witness :
  join_keys_present demo_pairs = true ∧
  db (load (Some demo_pairs) "movie_genres"
        (load (Some demo_pairs) "movie_genres" demo_world).2).2
  = db (load (Some demo_pairs) "movie_genres" demo_world).2.
Proof.
  split; [reflexivity|].
  apply (load_idempotent demo_pairs "movie_genres" demo_world).
  intros _. reflexivity.
Defined.

(** ** The conflict rule *)

(** C3. The statement [load] sends takes its conflict rule from the table
    name.  For [genres] and [movies] the target is [id] and every other
    column of the relation is set from the incoming row: when the store
    accepts the statement, a stored row whose [id] comes in again ends up
    with the values of the last incoming row of that [id] in every
    column of the relation but [id], and keeps the rest.  For
    [movie_genres] the target is the pair and the action is to do
    nothing: a statement the store accepts is accepted whatever pairs are
    stored, the stored pairs stay as they are, and a pair is added only
    when it was not there, once. *)
Theorem conflict_rule_by_table_name (df : DataFrame) (name : string) (w : world) :
  load_accepted df name (db w) = true →
  let w' := (load (Some df) name w).2 in
  let st := load_stmt name (columns df) in
  (if String.eqb name "movie_genres"
   then conflict_target st = ["movie_id"; "genre_id"] ∧ on_conflict st = DoNothing
   else conflict_target st = ["id"] ∧
        on_conflict st = DoUpdateSet (assigned_of (columns df))) ∧
  (name = "genres" ∨ name = "movies" →
   ∀ (k : Z) (old : row) (before : list row) (r : row) (after : list row),
     keyed_table name (db w) !! k = Some old →
     rows df = before ++ r :: after →
     cell r "id" = PyInt k →
     Forall (λ r', cell r' "id" ≠ PyInt k) after →
     ∃ new, keyed_table name (db w') !! k = Some new ∧
            (∀ c, c ∈ columns df → c ≠ "id" → new !! c = Some (cell r c)) ∧
            (∀ c, c ∉ columns df ∨ c = "id" → new !! c = old !! c)) ∧
  (name = "movie_genres" →
   (∀ s, load_accepted df name s = true) ∧
   ∃ news, movie_genres (db w') = movie_genres (db w) ++ news ∧
           (∀ p, p ∈ news → pair_is_key p = true → p ∉ movie_genres (db w)) ∧
           NoDup (List.filter pair_is_key news)).
Proof.
  intros Hacc w' st. subst w' st. rewrite load_db. repeat split.
  - unfold load_stmt, build_insert. cbn. by destruct (String.eqb name _).
  - intros Hk k old before r after Hold Hrows Hid Hafter.
    destruct (load_accepted_keyed df name (db w) Hk Hacc) as (krs & Hkrs & Hstore).
    rewrite Hstore.
    assert (∀ t, keyed_table name (with_keyed_table name t (db w)) = t) as ->
      by (intros t; by destruct Hk as [-> | ->]).
    unfold data_iter in Hkrs. rewrite Hrows, map_app in Hkrs. cbn [map] in Hkrs.
    apply Forall2_app_inv_l in Hkrs as (kb & krs' & Hb & Hrest & ->).
    apply Forall2_cons_inv_l in Hrest as (kr & ka & Hr & Ha & ->).
    destruct kr as [k' pr]. apply proposes_id in Hr as [Hk' Hpr]. cbn in Hk', Hpr.
    assert (k' = k) as -> by congruence.
    destruct (upserts_lookup_last (columns df) kb ka k pr
                (keyed_table name (db w)) old Hold) as (new & Hnew & Hset & Hkeep).
    { clear -Ha Hafter. revert ka Ha. induction after as [|r' after IH];
        intros ka Ha.
      - apply Forall2_nil_inv_l in Ha as ->. constructor.
      - apply Forall2_cons_inv_l in Ha as (kr' & ka' & Hr' & Ha' & ->).
        inversion Hafter as [|? ? Hne Hafter']; subst.
        constructor; [|by apply IH].
        apply proposes_id in Hr' as [Hk' _]. congruence. }
    exists new. split; [done|]. split.
    + intros c Hc Hne. rewrite Hset by (by apply elem_of_assigned).
      subst pr. by rewrite proposed_cell.
    + intros c Hc. apply Hkeep. rewrite elem_of_assigned. tauto.
  - subst name. intros s.
    destruct (load_accepted_join df (db w) Hacc) as (ps & _ & Hs).
    apply Hs.
  - subst name.
    destruct (load_accepted_join df (db w) Hacc) as (ps & _ & Hs).
    destruct (Hs (db w)) as [_ ->]. cbn.
    apply insert_pairs_append.
Qed.

Lemma conflict_rule_by_table_name_witness :
  load_accepted demo_genres "genres" (db demo_world) = true ∧
  ∃ new,
    genres (db (load (Some demo_genres) "genres" demo_world).2) !! 5%Z = Some new ∧
    new !! "name" = Some (PyStr "Drama") ∧
    new !! "seen" = Some (PyBool true).
Proof.
  split; [reflexivity|].
  destruct (conflict_rule_by_table_name demo_genres "genres" demo_world eq_refl)
    as (_ & Hkeyed & _).
  destruct (Hkeyed (or_introl eq_refl) 5%Z
              {[ "id" := PyInt 5; "name" := PyStr "Dramma"; "seen" := PyBool true ]}
              []
              (proposed ["id"; "name"] [PyInt 5; PyStr "Drama"])
              [proposed ["id"; "name"] [PyInt 7; PyStr "Comedy"]]
              eq_refl eq_refl eq_refl)
    as (new & Hnew & Hset & Hkeep).
  - constructor; [|constructor]. vm_compute. discriminate.
  - exists new. split; [exact Hnew|]. split.
    + rewrite (Hset "name"); [reflexivity | | discriminate].
      right. left.
    + rewrite (Hkeep "seen"); [reflexivity|].
      left. intros Hin. vm_compute in Hin.
      repeat (apply elem_of_cons in Hin as [Hin|Hin]; [discriminate|]).
      by apply elem_of_nil in Hin.
Defined.

(** ** The entity normaliser, step by step *)

Lemma as_records_dicts (recs : list record) :
  as_records (map PyDict recs) = Some recs.
Proof. induction recs as [|r recs IH]; cbn; [done|]. by rewrite IH. Qed.

Lemma transform_movies_body_inv tdv (recs : list record) (df mg : DataFrame) :
  transform_movies_body tdv (PyList (map PyDict recs)) = Ret (df, mg) →
  "id" ∈ record_columns recs ∧
  "release_date" ∈ record_columns recs ∧
  ∃ dates,
    pd_to_datetime tdv (map (λ r, cell r "release_date") (kept_rows recs)) = Ret dates ∧
    df = {| columns := List.filter (λ c, negb (bool_decide (c ∈ excluded_columns)))
                                   (record_columns recs);
            rows := movie_rows_of (kept_rows recs) dates |} ∧
    mg = {| columns := ["movie_id"; "genre_id"];
            rows := join_rows_of (kept_rows recs) |}.
Proof.
  unfold transform_movies_body, pd_DataFrame. rewrite as_records_dicts.
  unfold mbind, res_mbind, mret, res_mret. cbn [res_bind].
  fold (record_columns recs).
  unfold dropna, loc_columns, explode, get_column, drop_columns, set_column,
    has_column, rename.
  cbn [columns rows res_bind List.find negb map].
  destruct (bool_decide ("id" ∈ record_columns recs)) eqn:Hid; [|done].
  cbn [columns rows res_bind List.find negb].
  destruct (bool_decide ("genre_ids" ∈ record_columns recs)) eqn:Hg; [|done].
  cbn [columns rows res_bind List.find negb].
  rewrite Hid, Hg. cbn [columns rows res_bind List.find negb].
  fold (kept_rows recs).
  change (bool_decide ("genre_ids" ∈ ["id"; "genre_ids"])) with true.
  cbn [columns rows res_bind map].
  change (rename_label _ "id") with "movie_id".
  change (rename_label _ "genre_ids") with "genre_id".
  change (bool_decide ("genre_id" ∈ ["movie_id"; "genre_id"])) with true.
  cbn [columns rows res_bind].
  fold (join_rows_of (kept_rows recs)).
  destruct (bool_decide ("release_date" ∈ record_columns recs)) eqn:Hrd; [|done].
  cbn [res_bind].
  destruct (pd_to_datetime tdv _) as [dates|] eqn:Hdates; [|done].
  cbn [res_bind].
  destruct (List.find _ excluded_columns); [done|]. cbn [res_bind].
  intros [= <- <-].
  apply bool_decide_eq_true in Hid, Hrd.
  repeat split; [done..|]. by exists dates.
Qed.

Lemma lookup_row_of_record (rec : record) (c : string) :
  row_of_record rec !! c = dict_lookup c rec.
Proof.
  unfold row_of_record. induction rec as [|[k v] rec IH]; cbn; [done|].
  destruct (String.eqb_spec k c) as [->|Hne].
  - by rewrite lookup_insert_eq.
  - by rewrite lookup_insert_ne.
Qed.

Lemma cell_row_of_record (rec : record) (c : string) :
  cell (row_of_record rec) c = dict_get rec c PyNone.
Proof. unfold cell, dict_get. by rewrite lookup_row_of_record. Qed.

Lemma kept_rows_valid (recs : list record) :
  kept_rows recs = map row_of_record (List.filter valid_record recs).
Proof.
  unfold kept_rows, valid_record.
  induction recs as [|rec recs IH]; cbn; [done|].
  rewrite !cell_row_of_record.
  destruct (notna (dict_get rec "id" PyNone)); cbn; [|done].
  rewrite cell_row_of_record.
  destruct (notna (dict_get rec "genre_ids" PyNone)); cbn; by rewrite IH.
Qed.

Lemma release_date_not_excluded : "release_date" ∉ excluded_columns.
Proof. apply (bool_decide_eq_false_1 _). reflexivity. Qed.

Lemma id_not_excluded : "id" ∉ excluded_columns.
Proof. apply (bool_decide_eq_false_1 _). reflexivity. Qed.

Lemma cell_movie_row (r : row) (v : pyval) (c : string) :
  c ∉ excluded_columns →
  cell (foldr delete (<["release_date" := v]> r) excluded_columns) c =
    if String.eqb c "release_date" then v else cell r c.
Proof.
  intros Hc. unfold cell, excluded_columns in *. cbn [foldr].
  rewrite !lookup_delete_ne
    by (intros <-; apply Hc; apply (bool_decide_eq_true_1 _); reflexivity).
  destruct (String.eqb_spec c "release_date") as [->|Hne].
  - by rewrite lookup_insert_eq.
  - by rewrite lookup_insert_ne.
Qed.

(** Row by row: the movie frame carries the converted date and, in every
    column it keeps, the cell of the row it comes from. *)
Lemma movie_rows_of_spec tdv (kept : list row) :
  ∀ dates,
  pd_to_datetime tdv (map (λ r, cell r "release_date") kept) = Ret dates →
  Forall2 (λ r0 r,
             to_datetime_scalar tdv (cell r0 "release_date")
               = Ret (cell r "release_date") ∧
             ∀ c, c ∉ excluded_columns → c ≠ "release_date" →
                  cell r c = cell r0 c)
          kept (movie_rows_of kept dates).
Proof.
  unfold pd_to_datetime, movie_rows_of.
  induction kept as [|r0 kept IH]; intros dates; cbn [map res_mapM].
  - intros [= <-]. constructor.
  - destruct (to_datetime_scalar tdv (cell r0 "release_date")) as [d|] eqn:Ed; [|done].
    destruct (res_mapM _ _) as [ds|] eqn:Eds; [|done].
    intros [= <-]. cbn [map zip_with]. constructor; [|by apply IH].
    split.
    + by rewrite cell_movie_row by apply release_date_not_excluded.
    + intros c Hc Hne. rewrite cell_movie_row by done.
      by rewrite (proj2 (String.eqb_neq _ _) Hne).
Qed.

Lemma Forall2_elem_of_l {A B} (P : A → B → Prop) (l : list A) (k : list B) (x : A) :
  Forall2 P l k → x ∈ l → ∃ y, y ∈ k ∧ P x y.
Proof.
  induction 1 as [|a b l k Hab Hlk IH]; intros Hx.
  - by apply elem_of_nil in Hx.
  - apply elem_of_cons in Hx as [->|Hx].
    + exists b. split; [by left | done].
    + destruct (IH Hx) as (y & Hy & HP). exists y. split; [by right | done].
Qed.

Lemma elem_of_movie_columns (recs : list record) (c : string) :
  c ∈ List.filter (λ c, negb (bool_decide (c ∈ excluded_columns)))
                  (record_columns recs) ↔
  c ∈ record_columns recs ∧ c ∉ excluded_columns.
Proof.
  rewrite list_elem_of_In, filter_In, negb_true_iff, bool_decide_eq_false.
  by rewrite <- list_elem_of_In.
Qed.

Lemma join_rows_keys (kept : list row) :
  Forall (λ r, notna (cell r "id") = true) kept →
  Forall (λ r, notna (cell r "movie_id") = true ∧ notna (cell r "genre_id") = true)
         (join_rows_of kept).
Proof.
  intros Hkept. unfold join_rows_of. apply Forall_forall. intros r.
  rewrite !list_elem_of_In, filter_In, in_map_iff.
  intros [(r1 & <- & Hr1) Hg]. split; [|done].
  apply in_flat_map in Hr1 as (r2 & Hr2 & Hr1).
  apply in_map_iff in Hr1 as (v & <- & _).
  apply in_map_iff in Hr2 as (r3 & <- & Hr3).
  rewrite Forall_forall in Hkept. apply list_elem_of_In, Hkept in Hr3.
  unfold cell at 1. cbn. rewrite lookup_insert_eq. cbn.
  unfold cell at 1. rewrite lookup_insert_ne by done. cbn.
  by rewrite lookup_insert_eq.
Qed.

Lemma kept_rows_have_id (recs : list record) :
  Forall (λ r, notna (cell r "id") = true) (kept_rows recs).
Proof.
  unfold kept_rows. apply Forall_forall. intros r.
  rewrite !list_elem_of_In, !filter_In. tauto.
Qed.

(** The join relation the normaliser returns is as the data model wants
    it: every row has both keys. *)
Lemma transform_movies_join_keys tdv (recs : list record) (df mg : DataFrame) :
  transform_movies_body tdv (PyList (map PyDict recs)) = Ret (df, mg) →
  join_keys_present mg = true.
Proof.
  intros (_ & _ & dates & _ & _ & ->)%transform_movies_body_inv.
  unfold join_keys_present, has_column. cbn [columns rows].
  apply andb_true_iff. split; [reflexivity|].
  apply forallb_forall. intros r Hr%list_elem_of_In.
  pose proof (join_rows_keys _ (kept_rows_have_id recs)) as Hall.
  rewrite Forall_forall in Hall. destruct (Hall r Hr) as [-> ->]. done.
Qed.

Lemma Forall2_map_l {A B C} (f : A → B) (P : B → C → Prop) (l : list A) (k : list C) :
  Forall2 P (map f l) k → Forall2 (λ x y, P (f x) y) l k.
Proof.
  revert k. induction l as [|x l IH]; intros k; cbn; inversion 1; subst;
    constructor; [done | by apply IH].
Qed.

Lemma store_after_load_rejected (df : DataFrame) (name : string) (s : store) :
  load_accepted df name s = false → store_after_load df name s = s.
Proof.
  unfold load_accepted, store_after_load.
  destruct (rows df); [done|]. by destruct (execute_values _ _ s).
Qed.

(** ** Referential filtering *)

(** C7. A record without identifier or without genre-reference list is
    dropped by the entity normaliser and leaves no trace in the movie
    relation: the rows of the movie frame are, in order, the records that
    have both, cell for cell in every column the frame keeps (the date
    apart, which is converted); and loading that frame touches no stored
    movie but those identified by such a record. *)
Theorem dropped_records_never_persisted tdv (recs : list record)
    (df mg : DataFrame) (w : world) :
  transform_movies_body tdv (PyList (map PyDict recs)) = Ret (df, mg) →
  "id" ∈ columns df ∧
  Forall2 (λ rec r, ∀ c, c ∈ columns df → c ≠ "release_date" →
                         cell r c = dict_get rec c PyNone)
          (List.filter valid_record recs) (rows df) ∧
  ∀ k : Z,
    (∀ rec, rec ∈ recs → valid_record rec = true →
            dict_get rec "id" PyNone ≠ PyInt k) →
    movies (db (load (Some df) "movies" w).2) !! k = movies (db w) !! k.
Proof.
  intros (Hid & _ & dates & Hdates & -> & _)%transform_movies_body_inv.
  cbn [columns rows].
  assert ("id" ∈ List.filter (λ c, negb (bool_decide (c ∈ excluded_columns)))
                              (record_columns recs)) as Hidcol.
  { apply elem_of_movie_columns. split; [done | apply id_not_excluded]. }
  assert (Forall2 (λ rec r, ∀ c,
                     c ∈ List.filter (λ c, negb (bool_decide (c ∈ excluded_columns)))
                                     (record_columns recs) →
                     c ≠ "release_date" → cell r c = dict_get rec c PyNone)
                  (List.filter valid_record recs)
                  (movie_rows_of (kept_rows recs) dates)) as Hrows.
  { apply movie_rows_of_spec in Hdates. rewrite kept_rows_valid in Hdates |- *.
    apply Forall2_map_l in Hdates.
    eapply Forall2_impl; [exact Hdates|].
    intros rec r [_ Hcells] c [_ Hc]%elem_of_movie_columns Hne. cbn in Hcells.
    by rewrite Hcells, cell_row_of_record. }
  split; [done|]. split; [done|].
  intros k Hk. rewrite load_db.
  set (df := {| columns := _; rows := _ |}).
  destruct (load_accepted df "movies" (db w)) eqn:Hacc;
    [|by rewrite store_after_load_rejected].
  destruct (load_accepted_keyed df "movies" (db w)) as (krs & Hkrs & ->);
    [by right | done |].
  cbn. apply upserts_lookup_other.
  unfold data_iter in Hkrs. apply Forall2_map_l in Hkrs.
  eapply Forall2_Forall_r; [exact Hkrs|].
  eapply Forall2_Forall_r; [exact Hrows|].
  apply Forall_forall. intros rec Hrec r Hr kr Hkr.
  apply list_elem_of_In, filter_In in Hrec as [Hin Hvalid].
  apply proposes_id in Hkr as [Hkr _].
  intros <-. apply (Hk rec); [by apply list_elem_of_In | done |].
  by rewrite <- Hr.
Qed.

Lemma dropped_records_never_persisted_witness :
  ∃ df mg,
    transform_movies_body iso_to_datetime (PyList (map PyDict demo_batch))
      = Ret (df, mg) ∧
    map (λ r, cell r "id") (rows df) = [PyInt 1; PyInt 4] ∧
    movies (db (load (Some df) "movies" demo_world).2) !! 3%Z = None.
Proof.
  destruct (transform_movies_body iso_to_datetime (PyList (map PyDict demo_batch)))
    as [[df mg]|] eqn:Ht; [|vm_compute in Ht; discriminate].
  exists df, mg. split; [reflexivity|].
  destruct (dropped_records_never_persisted iso_to_datetime demo_batch df mg
              demo_world Ht) as (_ & _ & Hkeep).
  split.
  - vm_compute in Ht. injection Ht as <- _. reflexivity.
  - rewrite (Hkeep 3%Z); [reflexivity|].
    intros rec Hrec Hvalid.
    repeat (apply elem_of_cons in Hrec as [->|Hrec]; [try discriminate|]).
    by apply elem_of_nil in Hrec.
Defined.

(** ** Release dates *)








(** ** Flattening *)

Lemma kept_rows_single (rec : record) :
  valid_record rec = true → kept_rows [rec] = [row_of_record rec].
Proof. intros Hv. rewrite kept_rows_valid. cbn. by rewrite Hv. Qed.

Lemma join_rows_flatten (r : row) (m : Z) :
  cell r "id" = PyInt m →
  cell r "genre_ids" = PyList [PyInt 1; PyInt 2; PyInt 2; PyNone] →
  map (λ r', map (cell r') ["movie_id"; "genre_id"]) (join_rows_of [r]) =
    [[PyInt m; PyInt 1]; [PyInt m; PyInt 2]; [PyInt m; PyInt 2]] ∧
  join_rows_of [r] ≠ [].
Proof.
  intros Hid Hg. unfold join_rows_of. cbn [map flat_map].
  rewrite Hid, Hg.
  set (l := List.filter _ _).
  assert (l = map (λ g, list_to_map [("movie_id", PyInt m); ("genre_id", PyInt g)])
                  [1; 2; 2]%Z) as ->; [|split; done].
  subst l. vm_compute. reflexivity.
Qed.

(** C6. A record with identifier [m] and genre references
    [[1, 2, 2, null]], normalised and loaded: the join frame carries
    (m, 1), (m, 2), (m, 2), the null reference being dropped before the
    write, and the store, which had no pair of [m], ends with (m, 1) and
    (m, 2) once each, the repeated pair falling to the do-nothing rule. *)
Theorem flattening_persists_each_pair_once tdv (rec : record) (m : Z)
    (df mg : DataFrame) (w : world) :
  dict_get rec "id" PyNone = PyInt m →
  dict_get rec "genre_ids" PyNone = PyList [PyInt 1; PyInt 2; PyInt 2; PyNone] →
  transform_movies_body tdv (PyList [PyDict rec]) = Ret (df, mg) →
  (∀ g, (Some m, g) ∉ movie_genres (db w)) →
  columns mg = ["movie_id"; "genre_id"] ∧
  data_iter mg = [[PyInt m; PyInt 1]; [PyInt m; PyInt 2]; [PyInt m; PyInt 2]] ∧
  movie_genres (db (load (Some mg) "movie_genres" w).2) =
    movie_genres (db w) ++ [(Some m, Some 1%Z); (Some m, Some 2%Z)].
Proof.
  intros Hid Hg Ht Hfresh.
  apply (transform_movies_body_inv tdv [rec]) in Ht
    as (_ & _ & dates & _ & _ & ->).
  assert (valid_record rec = true) as Hvalid
    by (unfold valid_record; by rewrite Hid, Hg).
  rewrite kept_rows_single by done.
  destruct (join_rows_flatten (row_of_record rec) m) as [Hrows Hne];
    [by rewrite cell_row_of_record..|].
  split; [done|]. split; [done|].
  rewrite load_db. unfold store_after_load, data_iter. cbn [rows columns].
  rewrite Hrows.
  destruct (join_rows_of [row_of_record rec]) as [|r0 rs0]; [done|].
  rewrite execute_values_join. cbn -[insert_pair].
  unfold with_movie_genres. cbn [movie_genres fold_left].
  match goal with
  | |- context [join_pairs ?st ?pg] =>
      assert (join_pairs st pg
              = Ret [(Some m, Some 1%Z); (Some m, Some 2%Z); (Some m, Some 2%Z)])
        as -> by (vm_compute; reflexivity)
  end.
  cbn [concat app movie_genres fold_left].
  set (t := movie_genres (db w)).
  assert (insert_pair t (Some m, Some 1%Z) = t ++ [(Some m, Some 1%Z)]) as ->.
  { unfold insert_pair. rewrite bool_decide_eq_false_2 by apply Hfresh. done. }
  assert (insert_pair (t ++ [(Some m, Some 1%Z)]) (Some m, Some 2%Z)
          = t ++ [(Some m, Some 1%Z); (Some m, Some 2%Z)]) as ->.
  { unfold insert_pair. rewrite bool_decide_eq_false_2.
    - cbn. by rewrite <- app_assoc.
    - intros [Hin|Hin]%elem_of_app; [by apply (Hfresh (Some 2%Z))|].
      apply list_elem_of_singleton in Hin. discriminate. }
  apply insert_pair_stored; [done|].
  apply elem_of_app. right. right. left.
Qed.

Lemma flattening_persists_each_pair_once_witness :
  ∃ df mg,
    transform_movies_body iso_to_datetime (PyList [PyDict demo_flatten_record])
      = Ret (df, mg) ∧
    movie_genres (db (load (Some mg) "movie_genres" empty_world).2) =
      [(Some 9%Z, Some 1%Z); (Some 9%Z, Some 2%Z)].
Proof.
  destruct (transform_movies_body iso_to_datetime (PyList [PyDict demo_flatten_record]))
    as [[df mg]|] eqn:Ht; [|vm_compute in Ht; discriminate].
  exists df, mg. split; [reflexivity|].
  refine (proj2 (proj2 (flattening_persists_each_pair_once iso_to_datetime
            demo_flatten_record 9 df mg empty_world _ _ Ht _))).
  - reflexivity.
  - reflexivity.
  - intros g Hin. by apply elem_of_nil in Hin.
Defined.

(** ** One turn of the loop *)

Lemma main_loop_body_falsy env api tdv (p : Z) (w w2 : world) (v tp : pyval) :
  extract_movies env api (env_url env "movie") "results" p (logged (PaginationIs p) w)
    = (Ret (Some (v, tp)), w2) →
  truthy v = false →
  main_loop_body env api tdv p w = (Ret (NextIteration p), w2).
Proof.
  intros Hex Hv. unfold main_loop_body, bind, logging. cbn.
  fold (logged (PaginationIs p) w). rewrite Hex. cbn. rewrite Hv. reflexivity.
Qed.

Lemma main_loop_body_unpack_none env api tdv (p : Z) (w w2 : world) :
  extract_movies env api (env_url env "movie") "results" p (logged (PaginationIs p) w)
    = (Ret None, w2) →
  main_loop_body env api tdv p w = (Raise TypeError, w2).
Proof.
  intros Hex. unfold main_loop_body, bind, logging. cbn.
  fold (logged (PaginationIs p) w). rewrite Hex. reflexivity.
Qed.

Lemma main_loop_body_transform_raises env api tdv (p : Z) (w w2 : world)
    (v tp : pyval) (e : exn) :
  extract_movies env api (env_url env "movie") "results" p (logged (PaginationIs p) w)
    = (Ret (Some (v, tp)), w2) →
  truthy v = true →
  transform_movies_body tdv v = Raise e →
  main_loop_body env api tdv p w
    = (Raise TypeError, logged (MovieTransformationError e) w2).
Proof.
  intros Hex Hv Ht. unfold main_loop_body, bind, logging. cbn.
  fold (logged (PaginationIs p) w). rewrite Hex. cbn. rewrite Hv.
  unfold transform_movies, try_except, bind, lift, logging, ret. rewrite Ht. reflexivity.
Qed.

Lemma main_loop_body_loads env api tdv (p : Z) (w w2 : world)
    (v tp : pyval) (df mg : DataFrame) (last : bool) :
  extract_movies env api (env_url env "movie") "results" p (logged (PaginationIs p) w)
    = (Ret (Some (v, tp)), w2) →
  truthy v = true →
  transform_movies_body tdv v = Ret (df, mg) →
  py_ge p tp = Ret last →
  main_loop_body env api tdv p w =
    let w4 := (load (Some mg) "movie_genres" (load (Some df) "movies" w2).2).2 in
    if last then (Ret Break, logged ReachedLastPage w4)
    else (Ret (NextIteration (p + 1)), w4).
Proof.
  intros Hex Hv Ht Hge. unfold main_loop_body, bind, logging. cbn.
  fold (logged (PaginationIs p) w). rewrite Hex. cbn. rewrite Hv.
  unfold transform_movies, try_except, bind, lift, logging, ret. rewrite Ht. cbn.
  pose proof (load_returns (Some df) "movies" w2) as H1.
  destruct (load (Some df) "movies" w2) as [r1 w3]. cbn in H1. subst r1.
  cbn [snd].
  pose proof (load_returns (Some mg) "movie_genres" w3) as H2.
  destruct (load (Some mg) "movie_genres" w3) as [r2 w4]. cbn in H2. subst r2.
  cbn. rewrite Hge. destruct last; reflexivity.
Qed.

Lemma extract_movies_page env api (p : Z) (w : world) (u : string)
    (resp : response) (body : record) :
  env_url env "movie" = Some u →
  api (length (sent w)) (get_request env u (movies_params p)) = Some resp →
  startswith (str_int (status_code resp)) "20" = true →
  json resp = Some (PyDict body) →
  extract_movies env api (env_url env "movie") "results" p (logged (PaginationIs p) w)
    = (Ret (Some (dict_get body "results" PyNone,
                  dict_get body "total_pages" (PyInt 1))),
       {| db := db w;
          log := ApiResponseCode (status_code resp) :: PaginationIs p :: log w;
          sent := get_request env u (movies_params p) :: sent w |}).
Proof.
  intros -> Hapi Hok Hjson.
  rewrite (extract_movies_response env api _ u "results" p resp) by done.
  cbn. rewrite Hok, Hjson. reflexivity.
Qed.

(** ** The extractor *)

(** C5. A response counts as successful exactly when the first two
    digits of its status code are 2 and 0.  On success the decoded body
    gives the result: the named field and, for the paginated call, the
    field [total_pages] with 1 in its place when it is absent.  Any other
    status gives the empty result, with 0 pages for the paginated call. *)
Theorem extractor_contract env api (w : world) (u data : string) (page : Z)
    (resp : response) :
  api (length (sent w)) (get_request env u (movies_params page)) = Some resp →
  api (length (sent w)) (get_request env u []) = Some resp →
  let success := startswith (str_int (status_code resp)) "20" in
  (success = true ↔ first_two_digits (status_code resp) = Some 20%Z) ∧
  (success = true →
   ∀ body, json resp = Some (PyDict body) →
     (extract_movies env api (Some u) data page w).1
       = Ret (Some (dict_get body data PyNone,
                    dict_get body "total_pages" (PyInt 1))) ∧
     (extract_genre env api (Some u) data w).1 = Ret (dict_get body data PyNone)) ∧
  (success = false →
     (extract_movies env api (Some u) data page w).1
       = Ret (Some (PyList [], PyInt 0)) ∧
     (extract_genre env api (Some u) data w).1 = Ret (PyList [])).
Proof.
  intros Hm Hg success. subst success.
  rewrite (extract_movies_response env api w u data page resp Hm).
  rewrite (extract_genre_response env api w u data resp Hg).
  split; [apply startswith_first_two_digits|].
  split.
  - intros Hok body Hbody. cbn. by rewrite Hok, Hbody.
  - intros Hko. cbn. by rewrite Hko.
Qed.

Lemma extractor_contract_witness :
  (extract_movies demo_env
     (always {| status_code := 200; json := Some (PyDict demo_page_two) |})
     (Some "https://api.example/discover/movie") "results" 2 empty_world).1
  = Ret (Some (PyList [PyDict (movie_record (PyInt 102) (PyList [PyInt 28])
                                            (PyStr "2020-01-01") "page")],
               PyInt 3)).
Proof.
  refine (proj1 (proj1 (proj2 (extractor_contract demo_env
            (always {| status_code := 200; json := Some (PyDict demo_page_two) |})
            empty_world "https://api.example/discover/movie" "results" 2
            {| status_code := 200; json := Some (PyDict demo_page_two) |}
            _ _)) _ demo_page_two _)); reflexivity.
Defined.

(** ** A success response without the data field *)

(** C10. When a success response carries a body without the named field,
    [extract_genre] returns [None] and [extract_movies] returns [None]
    with the page count, not an empty list; and the loop, which only asks
    whether the result is true, goes on exactly as it does for any page
    without records: back to the same page, nothing written. *)
Theorem missing_field_is_an_empty_page env api tdv (w : world) (u data : string)
    (page : Z) (resp : response) (body : record) :
  api (length (sent w)) (get_request env u (movies_params page)) = Some resp →
  api (length (sent w)) (get_request env u []) = Some resp →
  startswith (str_int (status_code resp)) "20" = true →
  json resp = Some (PyDict body) →
  dict_lookup data body = None →
  (extract_genre env api (Some u) data w).1 = Ret PyNone ∧
  (extract_movies env api (Some u) data page w).1
    = Ret (Some (PyNone, dict_get body "total_pages" (PyInt 1))) ∧
  truthy PyNone = truthy (PyList []) ∧
  (data = "results" → env_url env "movie" = Some u →
   ∀ empty, empty = PyNone ∨ empty = PyList [] →
   ∀ api' body',
     api' (length (sent w)) (get_request env u (movies_params page))
       = Some {| status_code := status_code resp; json := Some (PyDict body') |} →
     dict_get body' "results" PyNone = empty →
     main_loop_body env api' tdv page w
     = (Ret (NextIteration page),
        {| db := db w;
           log := ApiResponseCode (status_code resp) :: PaginationIs page :: log w;
           sent := get_request env u (movies_params page) :: sent w |})).
Proof.
  intros Hm Hg Hok Hjson Hmissing.
  rewrite (extract_movies_response env api w u data page resp Hm).
  rewrite (extract_genre_response env api w u data resp Hg).
  cbn. rewrite Hok, Hjson. unfold dict_get at 1 2. rewrite Hmissing. cbn.
  repeat split.
  intros -> Hu empty Hempty api' body' Hapi' Hres.
  eapply main_loop_body_falsy.
  - rewrite (extract_movies_page env api' page w u _ body' Hu Hapi'); cbn;
      [reflexivity | done | done].
  - rewrite Hres. by destruct Hempty as [-> | ->].
Qed.

Lemma missing_field_is_an_empty_page_witness :
  main_loop_body demo_env demo_missing_field_api iso_to_datetime 1 empty_world
  = (Ret (NextIteration 1),
     {| db := empty_store;
        log := [ApiResponseCode 200; PaginationIs 1];
        sent := [get_request demo_env "https://api.example/discover/movie"
                             (movies_params 1)] |}).
Proof.
  refine (proj2 (proj2 (proj2 (missing_field_is_an_empty_page demo_env
            demo_missing_field_api iso_to_datetime empty_world
            "https://api.example/discover/movie" "results" 1
            {| status_code := 200;
               json := Some (PyDict [("page", PyInt 1); ("total_pages", PyInt 3)]) |}
            [("page", PyInt 1); ("total_pages", PyInt 3)] _ _ _ _ _)))
          _ _ PyNone _ demo_missing_field_api
          [("page", PyInt 1); ("total_pages", PyInt 3)] _ _);
    try reflexivity.
  by left.
Defined.

(** ** The loop *)

Lemma main_unfold env api tdv (fuel : nat) (w : world) :
  main env api tdv fuel w =
    let (r0, w1) := genre_stage env api w in
    match r0 with
    | Ret _ =>
        let (r, w') := main_loop env api tdv fuel 1 w1 in
        match r with
        | Ret (Some _) => (Ret (Some ()), logged EtlCompleted w')
        | Ret None => (Ret None, w')
        | Raise e => (Raise e, w')
        end
    | Raise e => (Raise e, w1)
    end.
Proof.
  unfold main, genre_stage, bind.
  destruct (extract_genre _ _ _ _ w) as [[v|e] w0]; [|reflexivity].
  destruct (truthy v).
  - destruct (transform_genre v w0) as [[g|e] w1]; [|reflexivity].
    destruct (load g "genres" w1) as [[[]|e] w2]; [|reflexivity].
    destruct (main_loop _ _ _ _ _ w2) as [[[[]|]|e] w3]; reflexivity.
  - cbn. destruct (main_loop _ _ _ _ _ w0) as [[[[]|]|e] w3]; reflexivity.
Qed.

Lemma main_loop_S env api tdv (fuel : nat) (p : Z) (w : world) :
  main_loop env api tdv (S fuel) p w =
    let (c, w') := main_loop_body env api tdv p w in
    match c with
    | Ret Break => (Ret (Some ()), w')
    | Ret (NextIteration p') => main_loop env api tdv fuel p' w'
    | Raise e => (Raise e, w')
    end.
Proof.
  cbn [main_loop]. unfold bind.
  destruct (main_loop_body _ _ _ p w) as [[[|p']|e] w']; reflexivity.
Qed.

(** A page without records holds the loop where it is: whatever the
    number of turns granted, the loop is still running, asking for the
    same page, and the store is as it was. *)
Lemma main_loop_stalls_on_empty_page env api tdv (u : string) (p : Z)
    (resp : response) (body : record) :
  env_url env "movie" = Some u →
  (∀ n, api n (get_request env u (movies_params p)) = Some resp) →
  startswith (str_int (status_code resp)) "20" = true →
  json resp = Some (PyDict body) →
  truthy (dict_get body "results" PyNone) = false →
  ∀ (fuel : nat) (w : world),
    (main_loop env api tdv fuel p w).1 = Ret None ∧
    db (main_loop env api tdv fuel p w).2 = db w ∧
    pages_requested (main_loop env api tdv fuel p w).2
      = pages_requested w ++ repeat (Some (PyInt p)) fuel.
Proof.
  intros Hu Hapi Hok Hjson Hempty. induction fuel as [|fuel IH]; intros w.
  - cbn. by rewrite app_nil_r.
  - rewrite main_loop_S.
    rewrite (main_loop_body_falsy env api tdv p w _ _ _
               (extract_movies_page env api p w u resp body Hu (Hapi _) Hok Hjson)
               Hempty).
    cbn zeta iota. set (w' := {| db := db w; log := _; sent := _ |}).
    destruct (IH w') as (H1 & H2 & H3). split; [done|]. split; [done|].
    rewrite H3. unfold pages_requested. cbn. by rewrite <- app_assoc.
Qed.

(** The same when the request fails outright ([extract_movies] answers a
    status that is not 20x with an empty list). *)
Lemma main_loop_stalls_on_failed_page env api tdv (u : string) (p : Z)
    (resp : response) :
  env_url env "movie" = Some u →
  (∀ n, api n (get_request env u (movies_params p)) = Some resp) →
  startswith (str_int (status_code resp)) "20" = false →
  ∀ (fuel : nat) (w : world),
    (main_loop env api tdv fuel p w).1 = Ret None ∧
    pages_requested (main_loop env api tdv fuel p w).2
      = pages_requested w ++ repeat (Some (PyInt p)) fuel.
Proof.
  intros Hu Hapi Hko. induction fuel as [|fuel IH]; intros w.
  - cbn. by rewrite app_nil_r.
  - rewrite main_loop_S.
    erewrite (main_loop_body_falsy env api tdv p w _ (PyList []) (PyInt 0));
      [| |reflexivity].
    2:{ rewrite Hu.
        rewrite (extract_movies_response env api _ u "results" p resp) by apply Hapi.
        cbn. rewrite Hko. reflexivity. }
    cbn zeta iota. set (w' := {| db := db w; log := _; sent := _ |}).
    destruct (IH w') as (H1 & H3). split; [done|].
    rewrite H3. unfold pages_requested. cbn. by rewrite <- app_assoc.
Qed.

(** When every page up to the announced count yields records the
    normaliser accepts, the loop asks for each page once, in order, and
    stops after the last. *)
Lemma main_loop_fetches_every_page env api tdv (u : string) (total : Z) :
  env_url env "movie" = Some u →
  (∀ n p, (1 ≤ p ≤ total)%Z →
     ∃ resp body df mg,
       api n (get_request env u (movies_params p)) = Some resp ∧
       startswith (str_int (status_code resp)) "20" = true ∧
       json resp = Some (PyDict body) ∧
       truthy (dict_get body "results" PyNone) = true ∧
       transform_movies_body tdv (dict_get body "results" PyNone) = Ret (df, mg) ∧
       dict_get body "total_pages" (PyInt 1) = PyInt total) →
  ∀ (k : nat) (p : Z) (fuel : nat) (w : world),
    (1 ≤ p)%Z → (p + Z.of_nat k = total)%Z → (k < fuel)%nat →
    (main_loop env api tdv fuel p w).1 = Ret (Some ()) ∧
    pages_requested (main_loop env api tdv fuel p w).2
      = pages_requested w ++ map (λ i, Some (PyInt i)) (seqZ p (Z.of_nat (S k))).
Proof.
  intros Hu Hapi. induction k as [|k IH]; intros p fuel w Hp Hk Hfuel;
    (destruct fuel as [|fuel]; [lia|]); rewrite main_loop_S;
    destruct (Hapi (length (sent w)) p ltac:(lia))
      as (resp & body & df & mg & Hresp & Hok & Hjson & Htruthy & Ht & Htotal).
  - rewrite (main_loop_body_loads env api tdv p w _ _ _ df mg true
               (extract_movies_page env api p w u resp body Hu Hresp Hok Hjson)
               Htruthy Ht).
    2:{ rewrite Htotal. cbn. f_equal. apply Z.leb_le. lia. }
    cbn. split; [done|]. unfold pages_requested. cbn.
    by rewrite !load_sent.
  - rewrite (main_loop_body_loads env api tdv p w _ _ _ df mg false
               (extract_movies_page env api p w u resp body Hu Hresp Hok Hjson)
               Htruthy Ht).
    2:{ rewrite Htotal. cbn. f_equal. apply Z.leb_gt. lia. }
    cbn zeta iota.
    set (w4 := (load (Some mg) "movie_genres" _).2).
    destruct (IH (p + 1)%Z fuel w4) as [H1 H2]; [lia..|].
    split; [done|]. rewrite H2. unfold pages_requested, w4.
    rewrite !load_sent. cbn [sent map rev].
    rewrite <- app_assoc. f_equal.
    rewrite (Nat2Z.inj_succ (S k)), (seqZ_cons p) by lia.
    rewrite Z.pred_succ, <- Z.add_1_r. reflexivity.
Qed.

(** Three pages announced and each yielding records are asked for in
    order, and the loop stops. *)
Lemma three_pages_are_fetched_in_order (fuel : nat) :
  let out := main demo_env demo_three_pages_api iso_to_datetime (3 + fuel) empty_world in
  out.1 = Ret (Some ()) ∧
  pages_requested out.2 = [None; Some (PyInt 1); Some (PyInt 2); Some (PyInt 3)].
Proof. vm_compute. done. Qed.

(** C2, where the code parts from the claim. Three pages are announced
    and the second comes back without records: whatever the number of
    turns granted, the loop is still running, it has asked for page 1
    once and for page 2 at every other turn, and page 3 is never asked
    for. *)
Theorem pagination_stalls_on_empty_page (fuel : nat) :
  let out := main demo_env demo_stalling_api iso_to_datetime (S fuel) empty_world in
  out.1 = Ret None ∧
  pages_requested out.2 = [None; Some (PyInt 1)] ++ repeat (Some (PyInt 2)) fuel.
Proof.
  intros out. subst out. rewrite main_unfold.
  assert ((genre_stage demo_env demo_stalling_api empty_world).1 = Ret ()) as Hr0
    by (vm_compute; reflexivity).
  assert (sent (genre_stage demo_env demo_stalling_api empty_world).2
          = [get_request demo_env "https://api.example/genre/movie/list" []]) as Hs1
    by (vm_compute; reflexivity).
  destruct (genre_stage demo_env demo_stalling_api empty_world) as [r0 w1].
  cbn [fst snd] in Hr0, Hs1. subst r0.
  rewrite main_loop_S.
  destruct (transform_movies_body iso_to_datetime
              (PyList [PyDict (movie_record (PyInt 101) (PyList [PyInt 28])
                                            (PyStr "2020-01-01") "page")]))
    as [[df mg]|] eqn:Ht; [|vm_compute in Ht; discriminate].
  rewrite (main_loop_body_loads demo_env demo_stalling_api iso_to_datetime 1 w1
             _ _ _ df mg false
             (extract_movies_page demo_env demo_stalling_api 1 w1
                "https://api.example/discover/movie" _ _
                eq_refl eq_refl eq_refl eq_refl)
             eq_refl Ht eq_refl).
  cbn zeta iota.
  set (w4 := (load (Some mg) "movie_genres" _).2).
  destruct (main_loop_stalls_on_empty_page demo_env demo_stalling_api
              iso_to_datetime "https://api.example/discover/movie" 2
              {| status_code := 200; json := Some (page_body [] 3) |}
              [("page", PyInt 1); ("results", PyList []); ("total_pages", PyInt 3)]
              eq_refl (λ _, eq_refl) eq_refl eq_refl eq_refl fuel w4)
    as (H1 & _ & H3).
  change (1 + 1)%Z with 2%Z.
  destruct (main_loop _ _ _ fuel 2 w4) as [r w']. cbn [fst snd] in H1, H3. subst r.
  cbn [fst snd]. split; [done|]. rewrite H3. unfold pages_requested, w4.
  rewrite !load_sent. cbn [sent]. by rewrite Hs1.
Qed.

(** ** Errors on a page *)

(** A request the transport fails on: [extract_movies] logs and returns
    [None], and unpacking that in [main] raises. *)
Lemma main_loop_body_transport_failure env api tdv (u : string) (p : Z) (w : world) :
  env_url env "movie" = Some u →
  api (length (sent w)) (get_request env u (movies_params p)) = None →
  (main_loop_body env api tdv p w).1 = Raise TypeError.
Proof.
  intros Hu Hapi.
  erewrite main_loop_body_unpack_none; [reflexivity|].
  rewrite Hu. unfold extract_movies, try_except, bind, request_url, rq_request.
  cbn. rewrite Hapi. reflexivity.
Qed.

(** An error raised inside the loop ends the loop. *)
Lemma main_loop_raises env api tdv (fuel : nat) (p : Z) (w : world) (e : exn) :
  (main_loop_body env api tdv p w).1 = Raise e →
  (main_loop env api tdv (S fuel) p w).1 = Raise e.
Proof.
  intros H. rewrite main_loop_S.
  destruct (main_loop_body env api tdv p w) as [r w']. cbn in H. by subst r.
Qed.

(** A page the normaliser raises on ends the loop with [TypeError],
    whatever pages were to follow. *)
Lemma main_loop_ends_on_transform_failure env api tdv (u : string) (p : Z)
    (resp : response) (body : record) (e : exn) (fuel : nat) (w : world) :
  env_url env "movie" = Some u →
  api (length (sent w)) (get_request env u (movies_params p)) = Some resp →
  startswith (str_int (status_code resp)) "20" = true →
  json resp = Some (PyDict body) →
  truthy (dict_get body "results" PyNone) = true →
  transform_movies_body tdv (dict_get body "results" PyNone) = Raise e →
  (main_loop env api tdv (S fuel) p w).1 = Raise TypeError.
Proof.
  intros Hu Hapi Hok Hjson Hv Ht. apply main_loop_raises.
  by rewrite (main_loop_body_transform_raises env api tdv p w _ _ _ e
                (extract_movies_page env api p w u resp body Hu Hapi Hok Hjson)
                Hv Ht).
Qed.

(** C4, where the code parts from the claim. The first of three pages
    holds a release date that is no date: [transform_movies] catches the
    error, logs it and returns [None]; unpacking that raises [TypeError]
    in [main], outside every handler.  The run ends there: page 1 is the
    only page asked for and no movie is stored. *)
Theorem transform_failure_ends_the_run (fuel : nat) :
  let out := main demo_env demo_bad_date_api iso_to_datetime (S fuel) empty_world in
  out.1 = Raise TypeError ∧
  pages_requested out.2 = [None; Some (PyInt 1)] ∧
  head (log out.2) = Some (MovieTransformationError ValueError) ∧
  movies (db out.2) = ∅.
Proof. vm_compute. done. Qed.

(** [load] never raises, whatever the store makes of the statement. *)
Lemma load_failure_is_logged :
  let w := (load (Some (frame_of ["id"; "name"] [[PyNone; PyStr "Mystery"]]))
                 "genres" empty_world) in
  w.1 = Ret () ∧
  log w.2 = [DataLoaded "genres";
             InsertOnConflictError
               (DatabaseError "null value in column id violates not-null constraint")] ∧
  db w.2 = empty_store.
Proof. vm_compute. done. Qed.

(** ** The taxonomy normaliser *)

(** What [transform_genre] returns is the frame as built: the [dropna]
    on the column changes no row of it. *)
Lemma transform_genre_body_keeps_every_row (results : pyval) (df : DataFrame) :
  transform_genre_body results = Ret df → pd_DataFrame results = Ret df.
Proof.
  unfold transform_genre_body, mbind, res_mbind, res_bind, mret, res_mret.
  destruct (pd_DataFrame results) as [d|]; [|done].
  by destruct (get_column "id" d).
Qed.

(** C9, where the code parts from the claim. A taxonomy record without
    identifier stays in the frame [transform_genre] returns; sent to the
    store with the rest, it makes the store refuse the whole statement,
    so no genre of the batch is stored. *)
Theorem transform_genre_keeps_null_id :
  ∃ df,
    transform_genre_body (PyList (map PyDict demo_taxonomy)) = Ret df ∧
    data_iter df = [[PyNone; PyStr "Mystery"]; [PyInt 18; PyStr "Drama"]] ∧
    genres (db (load (Some df) "genres" empty_world).2) = ∅.
Proof.
  destruct (transform_genre_body (PyList (map PyDict demo_taxonomy)))
    as [df|] eqn:Ht; [|vm_compute in Ht; discriminate].
  exists df. split; [done|].
  vm_compute in Ht. injection Ht as <-. split; vm_compute; reflexivity.
Qed.

(** * Further properties *)

(** ** The loader *)

Lemma null_id_is_refused (df : DataFrame) (name : string) (s : store) (r : row) :
  name = "genres" ∨ name = "movies" →
  r ∈ rows df → cell r "id" = PyNone →
  load_accepted df name s = false.
Proof.
  intros Hk Hr Hnull.
  destruct (load_accepted df name s) eqn:Hacc; [|done]. exfalso.
  destruct (load_accepted_keyed df name s Hk Hacc) as (krs & Hkrs & _).
  assert (map (cell r) (columns df) ∈ data_iter df) as Htuple.
  { unfold data_iter. apply list_elem_of_In.
    apply (in_map (λ r, map (cell r) (columns df))). by apply list_elem_of_In. }
  destruct (Forall2_elem_of_l _ _ _ _ Hkrs Htuple) as (kr & _ & Hp).
  apply proposes_id in Hp as [Hid _]. congruence.
Qed.

(** X1. A frame for [genres] or [movies] one of whose rows has a null
    [id] is refused by the store, and [load] still returns normally and
    reports success: the store is as it was, also when earlier pages of
    the statement had gone through; the refusal is logged by
    [insert_on_conflict_update], and [load] logs its success line after
    it all the same.  The frame has an [id] column and no column label
    twice. *)
Theorem load_refused_reports_success (df : DataFrame) (name : string) (w : world)
    (r : row) :
  name = "genres" ∨ name = "movies" →
  NoDup (columns df) → "id" ∈ columns df →
  r ∈ rows df → cell r "id" = PyNone →
  ∃ e, load (Some df) name w =
         (Ret (),
          {| db := db w;
             log := DataLoaded name :: InsertOnConflictError e :: log w;
             sent := sent w |}).
Proof.
  intros Hk Hnd _ Hr Hnull.
  pose proof (null_id_is_refused df name (db w) r Hk Hr Hnull) as Hacc.
  rewrite load_some, store_after_load_rejected by done.
  unfold load_accepted in Hacc.
  destruct (rows df); [done|].
  destruct (execute_values _ _ (db w)) as [s'|e]; [done|]. by exists e.
Qed.

Lemma load_refused_reports_success_witness :
  ∃ e, load (Some demo_long_genres) "genres" empty_world =
         (Ret (),
          {| db := empty_store;
             log := [DataLoaded "genres"; InsertOnConflictError e];
             sent := [] |}).
Proof.
  apply (load_refused_reports_success demo_long_genres "genres" empty_world
           (proposed ["id"; "name"] [PyNone; PyStr "nameless"])).
  - by left.
  - apply (bool_decide_eq_true_1 _). reflexivity.
  - left.
  - unfold demo_long_genres, frame_of. cbn [rows].
    rewrite List.map_app. apply elem_of_app. right. left.
  - reflexivity.
Defined.

Lemma proposes_from_rows (df : DataFrame) (krs : list (Z * row)) :
  Forall2 (proposes (columns df)) (data_iter df) krs →
  ∀ kr, kr ∈ krs → ∃ r, r ∈ rows df ∧ cell r "id" = PyInt kr.1.
Proof.
  intros H2 kr Hkr.
  assert (Forall (λ kr, ∃ r, r ∈ rows df ∧ cell r "id" = PyInt kr.1) krs) as Hall.
  { eapply Forall2_Forall_r; [exact H2|]. apply Forall_forall.
    intros tuple Htuple kr' Hp.
    apply data_iter_tuples in Htuple as (r & Hr & ->).
    exists r. split; [done|]. by apply proposes_id in Hp as [? _]. }
  rewrite Forall_forall in Hall. by apply Hall.
Qed.

Lemma keyed_pages_propose (df : DataFrame) (name : string) (krss : list (list (Z * row))) :
  name = "genres" ∨ name = "movies" →
  res_mapM (keyed_rows (load_stmt name (columns df)))
           (paginate (length (data_iter df)) (data_iter df)) = Ret krss →
  Forall2 (proposes (columns df)) (data_iter df) (concat krss).
Proof.
  intros Hk Hkrss.
  rewrite <- (concat_paginate (length (data_iter df)) (data_iter df)) at 1 by done.
  eapply res_mapM_concat; [|exact Hkrss].
  intros page xs Hx. apply keyed_rows_proposes in Hx.
  rewrite load_stmt_keyed in Hx by (by destruct Hk as [-> | ->]). exact Hx.
Qed.

(** The store after [load], table by table: the rows and pairs the
    statement brings, none for the tables it does not name. *)
Lemma store_after_load_shape (df : DataFrame) (name : string) :
  ∃ (gs ms : list (Z * row)) (ps : list (option Z * option Z)),
    (name ≠ "genres" → gs = []) ∧
    (name ≠ "movies" → ms = []) ∧
    (name ≠ "movie_genres" → ps = []) ∧
    (∀ kr, kr ∈ gs ++ ms → ∃ r, r ∈ rows df ∧ cell r "id" = PyInt kr.1) ∧
    ∀ s, store_after_load df name s =
         {| genres := upserts (columns df) gs (genres s);
            movies := upserts (columns df) ms (movies s);
            movie_genres := fold_left insert_pair ps (movie_genres s) |}.
Proof.
  assert (∀ kr : Z * row, kr ∈ [] ++ [] → ∃ r, r ∈ rows df ∧ cell r "id" = PyInt kr.1)
    as Hnone by (intros kr Hkr; by apply elem_of_nil in Hkr).
  unfold store_after_load.
  destruct (rows df) as [|r0 rs0] eqn:Hrows.
  { exists [], [], []. repeat split; try done. by intros [? ? ?]. }
  rewrite <- Hrows in *.
  destruct (decide (name = "genres")) as [->|Hg].
  { destruct (res_mapM (keyed_rows (load_stmt "genres" (columns df)))
                (paginate (length (data_iter df)) (data_iter df))) as [krss|e] eqn:Hk.
    - exists (concat krss), [], []. repeat split; try done.
      + rewrite app_nil_r. apply proposes_from_rows.
        apply (keyed_pages_propose df "genres"); [by left | done].
      + intros s. by rewrite execute_values_keyed, Hk by (by left).
    - exists [], [], []. repeat split; try done. intros [? ? ?].
      by rewrite execute_values_keyed, Hk by (by left). }
  destruct (decide (name = "movies")) as [->|Hm].
  { destruct (res_mapM (keyed_rows (load_stmt "movies" (columns df)))
                (paginate (length (data_iter df)) (data_iter df))) as [krss|e] eqn:Hk.
    - exists [], (concat krss), []. repeat split; try done.
      + apply proposes_from_rows.
        apply (keyed_pages_propose df "movies"); [by right | done].
      + intros s. by rewrite execute_values_keyed, Hk by (by right).
    - exists [], [], []. repeat split; try done. intros [? ? ?].
      by rewrite execute_values_keyed, Hk by (by right). }
  destruct (decide (name = "movie_genres")) as [->|Hmg].
  { destruct (res_mapM (join_pairs (load_stmt "movie_genres" (columns df)))
                (paginate (length (data_iter df)) (data_iter df))) as [pss|e] eqn:Hk.
    - exists [], [], (concat pss). repeat split; try done. intros s.
      by rewrite execute_values_join, Hk.
    - exists [], [], []. repeat split; try done. intros [? ? ?].
      by rewrite execute_values_join, Hk. }
  exists [], [], []. repeat split; try done. intros s.
  destruct (execute_values_unknown name (columns df) (data_iter df) s)
    as [e ->]; try done; [|by destruct s].
  intros Hd%data_iter_nil. rewrite Hd in Hrows. done.
Qed.

(** X2. [load] writes to the table it is given the name of and to no
    other: the other two tables are as they were, whatever the frame, and
    no request is sent. *)
Theorem load_touches_only_the_named_table (data : option DataFrame) (name : string)
    (w : world) :
  let w' := (load data name w).2 in
  (name ≠ "genres" → genres (db w') = genres (db w)) ∧
  (name ≠ "movies" → movies (db w') = movies (db w)) ∧
  (name ≠ "movie_genres" → movie_genres (db w') = movie_genres (db w)) ∧
  sent w' = sent w.
Proof.
  intros w'. subst w'. rewrite load_sent, load_db.
  destruct data as [df|]; [|done].
  destruct (store_after_load_shape df name) as (gs & ms & ps & Hg & Hm & Hp & _ & ->).
  cbn. repeat split; intros Hn; [rewrite Hg | rewrite Hm | rewrite Hp]; done.
Qed.

Lemma id_not_assigned (cols : list string) : "id" ∉ assigned_of cols.
Proof. rewrite elem_of_assigned. tauto. Qed.

Lemma upserts_keeps_rows (cols : list string) (krs : list (Z * row))
    (t : gmap Z row) (k : Z) (old : row) :
  t !! k = Some old →
  ∃ new, upserts cols krs t !! k = Some new ∧ new !! "id" = old !! "id" ∧
         ((∀ kr, kr ∈ krs → kr.1 ≠ k) → new = old).
Proof.
  intros Hold.
  destruct (upserts_lookup_stored cols krs k t old Hold) as (new & Hnew & Hsame).
  exists new. split; [done|]. split; [apply Hsame, id_not_assigned|].
  intros Hother. rewrite upserts_lookup_other in Hnew; [congruence|].
  apply Forall_forall. intros kr Hkr. by apply Hother.
Qed.

(** X3. [load] has no way to delete: a stored genre or movie is still
    stored afterwards, under the same [id], and is left exactly as it was
    when every row of the frame has a null [id] or an integer [id] other
    than its own; the pairs stored before are the beginning of the pairs
    stored after. *)
Theorem load_never_removes_a_row (df : DataFrame) (name : string) (w : world) :
  let w' := (load (Some df) name w).2 in
  (∀ k old, genres (db w) !! k = Some old →
     ∃ new, genres (db w') !! k = Some new ∧ new !! "id" = old !! "id" ∧
            ((∀ r, r ∈ rows df →
                cell r "id" = PyNone ∨ ∃ z, cell r "id" = PyInt z ∧ z ≠ k) →
             new = old)) ∧
  (∀ k old, movies (db w) !! k = Some old →
     ∃ new, movies (db w') !! k = Some new ∧ new !! "id" = old !! "id" ∧
            ((∀ r, r ∈ rows df →
                cell r "id" = PyNone ∨ ∃ z, cell r "id" = PyInt z ∧ z ≠ k) →
             new = old)) ∧
  movie_genres (db w) `prefix_of` movie_genres (db w').
Proof.
  intros w'. subst w'. rewrite load_db.
  destruct (store_after_load_shape df name) as (gs & ms & ps & _ & _ & _ & Hrows & ->).
  cbn. repeat split.
  - intros k old Hold.
    destruct (upserts_keeps_rows (columns df) gs _ k old Hold) as (new & H1 & H2 & H3).
    exists new. repeat split; try done. intros Hno. apply H3. intros kr Hkr Heq.
    destruct (Hrows kr) as (r & Hr & Hid); [apply elem_of_app; by left|].
    destruct (Hno r Hr) as [Hnull|(z & Hz & Hne)]; congruence.
  - intros k old Hold.
    destruct (upserts_keeps_rows (columns df) ms _ k old Hold) as (new & H1 & H2 & H3).
    exists new. repeat split; try done. intros Hno. apply H3. intros kr Hkr Heq.
    destruct (Hrows kr) as (r & Hr & Hid); [apply elem_of_app; by right|].
    destruct (Hno r Hr) as [Hnull|(z & Hz & Hne)]; congruence.
  - destruct (insert_pairs_append ps (movie_genres (db w))) as (news & -> & _).
    by exists news.
Qed.

Lemma upsert_row_for (cols : list string) (t : gmap Z row) (kr : Z * row) (k : Z) :
  row_for cols kr →
  (∀ old, t !! k = Some old → row_for cols (k, old)) →
  ∀ new, upsert (DoUpdateSet (assigned_of cols)) t kr !! k = Some new →
         row_for cols (k, new).
Proof.
  destruct kr as [k' r]. intros Hr Ht new. unfold upsert. cbn.
  destruct (decide (k' = k)) as [->|Hne].
  - destruct (t !! k) as [old|] eqn:Hold; rewrite lookup_insert_eq; intros [= <-];
      [|done].
    by rewrite (set_excluded_same_key cols k r old) by auto.
  - destruct (t !! k'); rewrite lookup_insert_ne by done; apply Ht.
Qed.

Lemma upserts_row_for (cols : list string) (krs : list (Z * row)) (k : Z) :
  Forall (row_for cols) krs →
  ∀ t, (∀ old, t !! k = Some old → row_for cols (k, old)) →
  ∀ new, upserts cols krs t !! k = Some new → row_for cols (k, new).
Proof.
  induction 1 as [|kr krs Hkr Hkrs IH]; intros t Ht new; cbn [fold_left]; [apply Ht|].
  apply IH. intros old. by apply upsert_row_for.
Qed.

(** The last row written under an identifier that was not stored is what
    is stored under it. *)
Lemma upserts_lookup_fresh (cols : list string) (before after : list (Z * row))
    (k : Z) (r : row) (t : gmap Z row) :
  Forall (row_for cols) before → row_for cols (k, r) →
  t !! k = None → Forall (λ kr, kr.1 ≠ k) after →
  upserts cols (before ++ (k, r) :: after) t !! k = Some r.
Proof.
  intros Hbefore Hr Hfresh Hafter.
  rewrite fold_left_app. cbn [fold_left].
  rewrite upserts_lookup_other by done.
  unfold upsert at 1. cbn.
  destruct (upserts cols before t !! k) as [mid|] eqn:Hmid;
    rewrite lookup_insert_eq; [|done].
  f_equal. apply (set_excluded_same_key cols k); [done|].
  apply (upserts_row_for cols before k Hbefore t); [|done].
  intros old. by rewrite Hfresh.
Qed.

(** X4. A row whose identifier is not stored yet is stored as it comes:
    when the store accepts the statement, the stored row has, in every
    column of the frame, the cell of the last row of the frame with that
    identifier, and no other column. *)
Theorem load_stores_a_new_row_as_it_comes (df : DataFrame) (name : string)
    (w : world) (k : Z) (before : list row) (r : row) (after : list row) :
  name = "genres" ∨ name = "movies" →
  load_accepted df name (db w) = true →
  keyed_table name (db w) !! k = None →
  rows df = before ++ r :: after →
  cell r "id" = PyInt k →
  Forall (λ r', cell r' "id" ≠ PyInt k) after →
  ∃ new, keyed_table name (db (load (Some df) name w).2) !! k = Some new ∧
         (∀ c, c ∈ columns df → new !! c = Some (cell r c)) ∧
         (∀ c, c ∉ columns df → new !! c = None).
Proof.
  intros Hk Hacc Hfresh Hrows Hid Hafter. rewrite load_db.
  destruct (load_accepted_keyed df name (db w) Hk Hacc) as (krs & Hkrs & ->).
  assert (∀ t, keyed_table name (with_keyed_table name t (db w)) = t) as ->
    by (intros t; by destruct Hk as [-> | ->]).
  pose proof (proposes_rows_for _ _ _ Hkrs) as Hwf.
  unfold data_iter in Hkrs. rewrite Hrows, map_app in Hkrs. cbn [map] in Hkrs.
  apply Forall2_app_inv_l in Hkrs as (kb & krs' & Hb & Hrest & ->).
  apply Forall2_cons_inv_l in Hrest as (kr & ka & Hr & Ha & ->).
  apply Forall_app in Hwf as [Hwfb Hwfr].
  inversion Hwfr as [|? ? Hwf1 _]; subst.
  destruct kr as [k' pr]. apply proposes_id in Hr as [Hk' Hpr]. cbn in Hk', Hpr.
  assert (k' = k) as -> by congruence.
  exists pr. split.
  - apply upserts_lookup_fresh; try done.
    clear -Ha Hafter. revert ka Ha. induction after as [|r' after IH]; intros ka Ha.
    + apply Forall2_nil_inv_l in Ha as ->. constructor.
    + apply Forall2_cons_inv_l in Ha as (kr' & ka' & Hr' & Ha' & ->).
      inversion Hafter as [|? ? Hne Hafter']; subst.
      constructor; [|by apply IH].
      apply proposes_id in Hr' as [Hk' _]. congruence.
  - destruct Hwf1 as [Hdom _]. cbn in Hdom. split.
    + intros c Hc. subst pr. by apply proposed_data_cell.
    + intros c Hc. destruct (pr !! c) eqn:E; [|done].
      exfalso. apply Hc, Hdom. eauto.
Qed.

Lemma load_stores_a_new_row_as_it_comes_witness :
  ∃ new, genres (db (load (Some demo_genres) "genres" demo_world).2) !! 7%Z = Some new ∧
         new !! "name" = Some (PyStr "Comedy") ∧
         new !! "seen" = None.
Proof.
  destruct (load_stores_a_new_row_as_it_comes demo_genres "genres" demo_world 7
              [proposed ["id"; "name"] [PyInt 5; PyStr "Drama"]]
              (proposed ["id"; "name"] [PyInt 7; PyStr "Comedy"]) []
              (or_introl eq_refl) eq_refl eq_refl eq_refl eq_refl)
    as (new & Hnew & Hin & Hout); [constructor|].
  exists new. split; [exact Hnew|]. split.
  - rewrite (Hin "name"); [reflexivity|]. right. left.
  - apply Hout. intros Hc.
    repeat (apply elem_of_cons in Hc as [Hc|Hc]; [discriminate|]).
    by apply elem_of_nil in Hc.
Defined.

(** X5. The statement for [genres] or [movies] sets every column but
    [id]; for a frame that has no column but [id] (or none at all) the
    list is empty, the statement is no SQL, and nothing of the frame is
    stored. *)
Theorem load_refuses_frame_without_other_column (df : DataFrame) (name : string)
    (s : store) :
  name ≠ "movie_genres" →
  assigned_of (columns df) = [] →
  rows df ≠ [] →
  load_accepted df name s = false ∧ store_after_load df name s = s.
Proof.
  intros Hname Hasg Hrows.
  assert (load_accepted df name s = false) as Hacc;
    [|split; [done | by apply store_after_load_rejected]].
  unfold load_accepted. destruct (rows df) as [|r0 rs0] eqn:Er; [done|].
  assert (data_iter df ≠ []) as Hne by (unfold data_iter; by rewrite Er).
  unfold execute_values. destruct (data_iter df) as [|a l]; [done|].
  cbn [length paginate execute_pages].
  assert (∀ page, ∃ e, cur_execute (load_stmt name (columns df)) page s = Raise e)
    as Hrefused; [|by destruct (Hrefused (take page_size (a :: l))) as [e ->]].
  intros page. rewrite load_stmt_keyed by (by apply String.eqb_neq).
  assert (∀ t, ∃ e, exec_keyed
            {| into_table := "etl_project." +:+ name; stmt_columns := columns df;
               conflict_target := ["id"];
               on_conflict := DoUpdateSet (assigned_of (columns df)) |} page t
            = Raise e) as Hkeyed.
  { intros t. unfold exec_keyed, keyed_rows, check_syntax.
    cbn [stmt_columns on_conflict]. rewrite Hasg.
    destruct (bool_decide (columns df = [])); eauto. }
  unfold cur_execute. cbn [into_table].
  destruct (String.eqb _ _); [by destruct (Hkeyed (genres s)) as [e ->]; eauto|].
  destruct (String.eqb _ _); [by destruct (Hkeyed (movies s)) as [e ->]; eauto|].
  destruct (String.eqb _ _) eqn:E; [|eauto].
  apply String.eqb_eq in E. injection E as E. done.
Qed.

Lemma load_refuses_frame_without_other_column_witness :
  load_accepted demo_ids_only "genres" demo_store = false ∧
  store_after_load demo_ids_only "genres" demo_store = demo_store.
Proof.
  apply (load_refuses_frame_without_other_column demo_ids_only "genres" demo_store);
    [discriminate | reflexivity | discriminate].
Defined.

(** ** The normalisers *)

Lemma elem_of_unique_labels (c : string) (l : list string) :
  ∀ seen, c ∈ unique_labels seen l ↔ c ∈ l ∧ c ∉ seen.
Proof.
  induction l as [|x l IH]; intros seen; cbn [unique_labels].
  - split; [by intros ?%elem_of_nil | by intros [?%elem_of_nil _]].
  - destruct (bool_decide (x ∈ seen)) eqn:Hx.
    + apply bool_decide_eq_true in Hx. rewrite IH, elem_of_cons.
      split; [tauto|]. intros [[->|?] ?]; [done|tauto].
    + apply bool_decide_eq_false in Hx. rewrite !elem_of_cons, IH, elem_of_cons.
      split.
      * intros [->|[? ?]]; tauto.
      * intros [[->|?] ?]; [tauto|]. destruct (decide (c = x)); tauto.
Qed.

(** The columns of the frame are the keys of the records. *)
Lemma elem_of_record_columns (recs : list record) (c : string) :
  c ∈ record_columns recs ↔ ∃ rec, rec ∈ recs ∧ c ∈ map fst rec.
Proof.
  unfold record_columns. rewrite elem_of_unique_labels.
  split.
  - intros [Hc _]. apply list_elem_of_In, in_concat in Hc as (ks & Hks & Hc).
    apply in_map_iff in Hks as (rec & <- & Hrec).
    exists rec. by rewrite !list_elem_of_In.
  - intros (rec & Hrec & Hc). split; [|by intros ?%elem_of_nil].
    apply list_elem_of_In, in_concat. exists (map fst rec).
    split; [apply in_map|]; by apply list_elem_of_In.
Qed.

Lemma transform_movies_body_columns tdv (recs : list record) (df mg : DataFrame) :
  transform_movies_body tdv (PyList (map PyDict recs)) = Ret (df, mg) →
  ∀ c, c ∈ required_columns → c ∈ record_columns recs.
Proof.
  unfold transform_movies_body, pd_DataFrame. rewrite as_records_dicts.
  unfold mbind, res_mbind, mret, res_mret. cbn [res_bind].
  fold (record_columns recs).
  unfold dropna, loc_columns, explode, get_column, drop_columns, set_column,
    has_column, rename.
  cbn [columns rows res_bind List.find negb map].
  destruct (bool_decide ("id" ∈ record_columns recs)) eqn:Hid; [|done].
  cbn [columns rows res_bind List.find negb].
  destruct (bool_decide ("genre_ids" ∈ record_columns recs)) eqn:Hg; [|done].
  cbn [columns rows res_bind List.find negb].
  rewrite Hid, Hg. cbn [columns rows res_bind List.find negb].
  change (bool_decide ("genre_ids" ∈ ["id"; "genre_ids"])) with true.
  cbn [columns rows res_bind map].
  change (rename_label _ "id") with "movie_id".
  change (rename_label _ "genre_ids") with "genre_id".
  change (bool_decide ("genre_id" ∈ ["movie_id"; "genre_id"])) with true.
  cbn [columns rows res_bind].
  destruct (bool_decide ("release_date" ∈ record_columns recs)) eqn:Hrd; [|done].
  cbn [res_bind].
  destruct (pd_to_datetime tdv _) as [dates|] eqn:Hdates; [|done].
  cbn [res_bind]. unfold excluded_columns. cbn [List.find].
  destruct (bool_decide ("backdrop_path" ∈ record_columns recs)) eqn:H1; [|done].
  destruct (bool_decide ("poster_path" ∈ record_columns recs)) eqn:H2; [|done].
  destruct (bool_decide ("video" ∈ record_columns recs)) eqn:H3; [|done].
  destruct (bool_decide ("adult" ∈ record_columns recs)) eqn:H4; [|done].
  intros _ c Hc.
  apply bool_decide_eq_true in Hid, Hg, Hrd, H1, H2, H3, H4.
  unfold required_columns in Hc.
  repeat (apply elem_of_cons in Hc as [->|Hc]; [done|]).
  by apply elem_of_nil in Hc.
Qed.

(** X6. [transform_movies] reads or drops seven columns by name; when
    one of them is a key of no record of the page, the whole page is
    lost: the function logs the error and returns [None], whatever the
    other columns and the dates are. *)
Theorem transform_movies_needs_its_columns tdv (recs : list record) (c : string)
    (w : world) :
  c ∈ required_columns →
  (∀ rec, rec ∈ recs → c ∉ map fst rec) →
  ∃ e, transform_movies tdv (PyList (map PyDict recs)) w =
         (Ret None, logged (MovieTransformationError e) w).
Proof.
  intros Hc Hnone.
  unfold transform_movies, try_except, bind, lift, logging, ret.
  destruct (transform_movies_body tdv (PyList (map PyDict recs)))
    as [[df mg]|e] eqn:Hbody; [|by exists e].
  exfalso.
  apply (transform_movies_body_columns _ _ _ _ Hbody), elem_of_record_columns in Hc
    as (rec & Hrec & Hin).
  by apply (Hnone rec).
Qed.

Lemma transform_movies_needs_its_columns_witness :
  ∃ e, transform_movies iso_to_datetime (PyList (map PyDict [demo_no_video])) empty_world =
         (Ret None, logged (MovieTransformationError e) empty_world).
Proof.
  apply (transform_movies_needs_its_columns iso_to_datetime [demo_no_video] "video").
  - apply (bool_decide_eq_true_1 _). reflexivity.
  - intros rec Hrec. apply list_elem_of_singleton in Hrec as ->.
    apply (bool_decide_eq_false_1 _). reflexivity.
Defined.

Lemma NoDup_unique_labels (l : list string) :
  ∀ seen, NoDup (unique_labels seen l).
Proof.
  induction l as [|x l IH]; intros seen; cbn [unique_labels]; [constructor|].
  destruct (bool_decide (x ∈ seen)); [apply IH|].
  constructor; [|apply IH].
  rewrite elem_of_unique_labels. intros [_ Hx]. apply Hx. left.
Qed.

Lemma NoDup_list_filter {A} (f : A → bool) (l : list A) :
  NoDup l → NoDup (List.filter f l).
Proof.
  induction 1 as [|x l Hx Hl IH]; cbn [List.filter]; [constructor|].
  destruct (f x); [|done]. constructor; [|done].
  rewrite list_elem_of_In, filter_In, <- list_elem_of_In. tauto.
Qed.

Lemma lookup_dropped (r : row) (cols : list string) (c : string) :
  c ∈ cols → foldr delete r cols !! c = None.
Proof.
  induction cols as [|x cols IH]; [by intros ?%elem_of_nil|].
  intros Hc. cbn [foldr]. destruct (decide (x = c)) as [->|Hne].
  - apply lookup_delete_eq.
  - rewrite lookup_delete_ne by done. apply IH.
    apply elem_of_cons in Hc as [?|?]; [congruence|done].
Qed.

(** X7. The movie frame [transform_movies] returns has the keys of the
    records as columns, each once, in order of first appearance and
    without the five dropped ones; [id] and [release_date] are among
    them; and no row holds a cell under a dropped label.  The join frame
    has the two columns [movie_id] and [genre_id]. *)
Theorem transform_movies_frames_columns tdv (recs : list record) (df mg : DataFrame) :
  transform_movies_body tdv (PyList (map PyDict recs)) = Ret (df, mg) →
  NoDup (columns df) ∧
  (∀ c, c ∈ columns df ↔
        (∃ rec, rec ∈ recs ∧ c ∈ map fst rec) ∧
        c ∉ ["backdrop_path"; "poster_path"; "video"; "adult"; "genre_ids"]) ∧
  "id" ∈ columns df ∧ "release_date" ∈ columns df ∧
  (∀ r c, r ∈ rows df →
          c ∈ ["backdrop_path"; "poster_path"; "video"; "adult"; "genre_ids"] →
          r !! c = None) ∧
  columns mg = ["movie_id"; "genre_id"].
Proof.
  intros (Hid & Hrd & dates & _ & -> & ->)%transform_movies_body_inv.
  cbn [columns rows]. split; [|split; [|split; [|split; [|split; [|done]]]]].
  - apply NoDup_list_filter, NoDup_unique_labels.
  - intros c. by rewrite elem_of_movie_columns, elem_of_record_columns.
  - apply elem_of_movie_columns. split; [done|apply id_not_excluded].
  - apply elem_of_movie_columns. split; [done|apply release_date_not_excluded].
  - intros r c Hr Hc. unfold movie_rows_of in Hr.
    apply list_elem_of_In, in_map_iff in Hr as (r0 & <- & _).
    by apply lookup_dropped.
Qed.

Lemma transform_movies_frames_columns_witness :
  ∃ df mg,
    transform_movies_body iso_to_datetime (PyList (map PyDict demo_batch)) = Ret (df, mg) ∧
    NoDup (columns df) ∧ "id" ∈ columns df ∧ "release_date" ∈ columns df ∧
    columns mg = ["movie_id"; "genre_id"].
Proof.
  destruct (transform_movies_body iso_to_datetime (PyList (map PyDict demo_batch)))
    as [[df mg]|e] eqn:Hbody; [|vm_compute in Hbody; discriminate].
  exists df, mg. split; [reflexivity|].
  destruct (transform_movies_frames_columns iso_to_datetime demo_batch df mg Hbody)
    as (Hnd & _ & Hid & Hrd & _ & Hmg).
  repeat split; assumption.
Defined.

Lemma join_rows_of_cons (r : row) (rs : list row) :
  join_rows_of (r :: rs) = join_rows_of [r] ++ join_rows_of rs.
Proof.
  unfold join_rows_of. cbn [map flat_map].
  rewrite app_nil_r, !List.map_app, !List.filter_app. reflexivity.
Qed.

Lemma join_rows_of_one (r : row) :
  map (λ r', map (cell r') ["movie_id"; "genre_id"]) (join_rows_of [r]) =
    map (λ g, [cell r "id"; g])
        (List.filter notna (explode_cell (cell r "genre_ids"))).
Proof.
  unfold join_rows_of. cbn [map flat_map]. rewrite app_nil_r.
  assert (cell (list_to_map [("id", cell r "id"); ("genre_ids", cell r "genre_ids")]
                : row) "genre_ids" = cell r "genre_ids") as ->.
  { unfold cell at 1. cbn. rewrite lookup_insert_ne by done.
    by rewrite lookup_insert_eq. }
  induction (explode_cell (cell r "genre_ids")) as [|g gs IH]; [done|].
  cbn [map List.filter].
  assert (∀ v, cell (<["genre_ids" := v]>
                       (list_to_map [("id", cell r "id");
                                     ("genre_ids", cell r "genre_ids")] : row))
                    "id" = cell r "id") as Hid.
  { intros v. unfold cell at 1. cbn. rewrite lookup_insert_ne by done.
    by rewrite lookup_insert_eq. }
  assert (∀ v (r0 : row), cell (<["genre_ids" := v]> r0) "genre_ids" = v) as Hgi.
  { intros v r0. unfold cell. by rewrite lookup_insert_eq. }
  assert (∀ a b, cell (list_to_map [("movie_id", a); ("genre_id", b)] : row)
                      "genre_id" = b) as Hg.
  { intros a b. unfold cell. cbn. rewrite lookup_insert_ne by done.
    by rewrite lookup_insert_eq. }
  assert (∀ a b, cell (list_to_map [("movie_id", a); ("genre_id", b)] : row)
                      "movie_id" = a) as Hm.
  { intros a b. unfold cell. cbn. by rewrite lookup_insert_eq. }
  rewrite Hg, Hgi.
  destruct (notna g); [|exact IH].
  cbn [map]. by rewrite Hm, Hg, Hid, IH.
Qed.

(** X8. The join frame lists, record by record in the order of the page,
    the identifier of each kept record with every element of its
    genre-reference list that is not missing, repetitions included; a
    record with an empty list contributes nothing and a reference that is
    no list stands for itself. *)
Theorem join_frame_lists_every_reference tdv (recs : list record) (df mg : DataFrame) :
  transform_movies_body tdv (PyList (map PyDict recs)) = Ret (df, mg) →
  columns mg = ["movie_id"; "genre_id"] ∧
  data_iter mg = flat_map pairs_of_record (List.filter valid_record recs).
Proof.
  intros (_ & _ & dates & _ & _ & ->)%transform_movies_body_inv.
  split; [done|]. unfold data_iter. cbn [columns rows].
  rewrite kept_rows_valid.
  induction (List.filter valid_record recs) as [|rec l IH]; [done|].
  change (map row_of_record (rec :: l)) with (row_of_record rec :: map row_of_record l).
  rewrite join_rows_of_cons, List.map_app, IH, join_rows_of_one.
  unfold pairs_of_record. by rewrite !cell_row_of_record.
Qed.

Lemma join_frame_lists_every_reference_witness :
  ∃ df mg,
    transform_movies_body iso_to_datetime (PyList (map PyDict demo_batch)) = Ret (df, mg) ∧
    data_iter mg = [[PyInt 1; PyInt 28]; [PyInt 1; PyInt 12]; [PyInt 4; PyInt 18]].
Proof.
  destruct (transform_movies_body iso_to_datetime (PyList (map PyDict demo_batch)))
    as [[df mg]|e] eqn:Hbody; [|vm_compute in Hbody; discriminate].
  exists df, mg. split; [reflexivity|].
  destruct (join_frame_lists_every_reference iso_to_datetime demo_batch df mg Hbody)
    as [_ ->].
  reflexivity.
Defined.

Lemma store_after_load_commute (df mg : DataFrame) (s : store) :
  store_after_load df "movies" (store_after_load mg "movie_genres" s) =
  store_after_load mg "movie_genres" (store_after_load df "movies" s).
Proof.
  destruct (store_after_load_shape df "movies") as (gs & ms & ps & Hg & _ & Hp & _ & Hdf).
  destruct (store_after_load_shape mg "movie_genres")
    as (gs' & ms' & ps' & Hg' & Hm' & _ & _ & Hmg).
  rewrite Hg, Hp in Hdf by done. rewrite Hg', Hm' in Hmg by done.
  by rewrite !Hdf, !Hmg.
Qed.

(** X9. Loading a page the normaliser returned a second time changes
    nothing: after the two [load] of [main], the two [load] again leave the
    store as it is, whether the store took the statements or refused
    them. *)
Theorem reloading_a_page_changes_nothing tdv (recs : list record) (df mg : DataFrame)
    (w : world) :
  transform_movies_body tdv (PyList (map PyDict recs)) = Ret (df, mg) →
  db (page_loaded df mg (page_loaded df mg w)) = db (page_loaded df mg w).
Proof.
  intros Hbody. unfold page_loaded. rewrite !load_db.
  rewrite (store_after_load_commute df mg).
  rewrite (store_after_load_idempotent df "movies") by done.
  rewrite (store_after_load_idempotent mg "movie_genres"); [done|].
  intros _. by eapply transform_movies_join_keys.
Qed.

Lemma reloading_a_page_changes_nothing_witness :
  ∃ df mg,
    transform_movies_body iso_to_datetime (PyList (map PyDict demo_batch)) = Ret (df, mg) ∧
    db (page_loaded df mg (page_loaded df mg demo_world)) = db (page_loaded df mg demo_world).
Proof.
  destruct (transform_movies_body iso_to_datetime (PyList (map PyDict demo_batch)))
    as [[df mg]|e] eqn:Hbody; [|vm_compute in Hbody; discriminate].
  exists df, mg. split; [reflexivity|].
  exact (reloading_a_page_changes_nothing iso_to_datetime demo_batch df mg demo_world Hbody).
Defined.

(** X10. [transform_genre] fails exactly when no record has an [id] key:
    then it logs the error and returns [None]; otherwise it returns every
    record as a row, and writes no line. *)
Theorem transform_genre_needs_an_id_key (recs : list record) (w : world) :
  ((∀ rec, rec ∈ recs → "id" ∉ map fst rec) →
   transform_genre (PyList (map PyDict recs)) w =
     (Ret None, logged (GenreTransformationError (KeyError "id")) w)) ∧
  ((∃ rec, rec ∈ recs ∧ "id" ∈ map fst rec) →
   transform_genre (PyList (map PyDict recs)) w =
     (Ret (Some {| columns := record_columns recs;
                   rows := map row_of_record recs |}), w)).
Proof.
  unfold transform_genre, try_except, bind, lift, logging, ret,
    transform_genre_body, pd_DataFrame.
  rewrite as_records_dicts. unfold mbind, res_mbind, mret, res_mret. cbn [res_bind].
  fold (record_columns recs). unfold get_column, has_column. cbn [columns rows].
  split.
  - intros Hnone.
    rewrite bool_decide_eq_false_2; [done|].
    intros (rec & Hrec & Hin)%elem_of_record_columns. by apply (Hnone rec).
  - intros Hsome%elem_of_record_columns.
    by rewrite bool_decide_eq_true_2.
Qed.

Lemma transform_genre_needs_an_id_key_witness :
  transform_genre (PyList (map PyDict demo_taxonomy_without_id)) empty_world =
    (Ret None, logged (GenreTransformationError (KeyError "id")) empty_world) ∧
  transform_genre (PyList (map PyDict demo_taxonomy)) empty_world =
    (Ret (Some {| columns := record_columns demo_taxonomy;
                  rows := map row_of_record demo_taxonomy |}), empty_world).
Proof.
  split.
  - apply (transform_genre_needs_an_id_key demo_taxonomy_without_id empty_world).
    intros rec Hrec. apply (bool_decide_eq_false_1 _).
    repeat (apply elem_of_cons in Hrec as [->|Hrec]; [reflexivity|]).
    by apply elem_of_nil in Hrec.
  - apply (transform_genre_needs_an_id_key demo_taxonomy empty_world).
    exists (genre_record (PyInt 18) "Drama"). split.
    + right. left.
    + left.
Defined.

(** ** The extractors *)

Lemma extract_movies_cases env api (u : option string) (data : string) (page : Z)
    (w : world) :
  ∃ r w', extract_movies env api u data page w = (Ret r, w') ∧
          db w' = db w ∧
          sent w' = match u with
                    | Some u' => get_request env u' (movies_params page) :: sent w
                    | None => sent w
                    end ∧
          (u = None → r = None).
Proof.
  destruct u as [u|].
  - destruct (api (length (sent w)) (get_request env u (movies_params page)))
      as [resp|] eqn:Hapi.
    + rewrite (extract_movies_response env api w u data page resp Hapi). cbn zeta.
      destruct (startswith _ _); [|(do 2 eexists; split; [reflexivity|]; cbn; repeat split; done)].
      destruct (json resp) as [[]|]; (do 2 eexists; split; [reflexivity|]; cbn; repeat split; done).
    + unfold extract_movies, try_except, bind, request_url, rq_request. cbn.
      rewrite Hapi. cbn. (do 2 eexists; split; [reflexivity|]; cbn; repeat split; done).
  - unfold extract_movies, try_except, bind, request_url, raise. cbn. (do 2 eexists; split; [reflexivity|]; cbn; repeat split; done).
Qed.

Lemma extract_genre_cases env api (u : option string) (data : string) (w : world) :
  ∃ r w', extract_genre env api u data w = (Ret r, w') ∧
          db w' = db w ∧
          sent w' = match u with
                    | Some u' => get_request env u' [] :: sent w
                    | None => sent w
                    end.
Proof.
  destruct u as [u|].
  - destruct (api (length (sent w)) (get_request env u [])) as [resp|] eqn:Hapi.
    + rewrite (extract_genre_response env api w u data resp Hapi). cbn zeta.
      destruct (startswith _ _); [|(do 2 eexists; split; [reflexivity|]; cbn; repeat split; done)].
      destruct (json resp) as [[]|]; (do 2 eexists; split; [reflexivity|]; cbn; repeat split; done).
    + unfold extract_genre, try_except, bind, request_url, rq_request. cbn.
      rewrite Hapi. cbn. (do 2 eexists; split; [reflexivity|]; cbn; repeat split; done).
  - unfold extract_genre, try_except, bind, request_url, raise. cbn. (do 2 eexists; split; [reflexivity|]; cbn; repeat split; done).
Qed.

(** X11. No exception leaves an extractor, whatever the transport and
    the response do; an extractor never writes to the store; and it sends
    exactly one request when it is given a URL (a GET with the bearer
    token, for [extract_movies] with the page asked for), none when the
    endpoint is not configured. *)
Theorem extractors_never_raise env api (u : option string) (data : string)
    (page : Z) (w : world) :
  let movies_out := extract_movies env api u data page w in
  let genre_out := extract_genre env api u data w in
  (∃ r, movies_out.1 = Ret r) ∧ (∃ r, genre_out.1 = Ret r) ∧
  db movies_out.2 = db w ∧ db genre_out.2 = db w ∧
  sent movies_out.2 =
    match u with
    | Some u' =>
        {| req_method := "GET"; req_url := u';
           req_headers := [("Authorization", "Bearer " +:+ ACCESS_TOKEN env);
                           ("accept", "application/json")];
           req_params := [("page", PyInt page);
                          ("sort_by", PyStr "primary_release_date.asc")] |} :: sent w
    | None => sent w
    end ∧
  sent genre_out.2 =
    match u with
    | Some u' =>
        {| req_method := "GET"; req_url := u';
           req_headers := [("Authorization", "Bearer " +:+ ACCESS_TOKEN env);
                           ("accept", "application/json")];
           req_params := [] |} :: sent w
    | None => sent w
    end.
Proof.
  intros movies_out genre_out. subst movies_out genre_out.
  destruct (extract_movies_cases env api u data page w) as (r & w' & -> & Hdb & Hsent & _).
  destruct (extract_genre_cases env api u data w) as (r' & w'' & -> & Hdb' & Hsent').
  cbn [fst snd]. repeat split; eauto.
Qed.

(** ** The stages of the run *)

Lemma transform_genre_world (v : pyval) (w : world) :
  ∃ og l, transform_genre v w = (Ret og, {| db := db w; log := l; sent := sent w |}).
Proof.
  unfold transform_genre, try_except, bind, lift, logging, ret.
  destruct (transform_genre_body v); destruct w; cbn; eauto.
Qed.

Lemma load_cases (data : option DataFrame) (name : string) (w : world) :
  ∃ w', load data name w = (Ret (), w') ∧ sent w' = sent w ∧
        (name ≠ "genres" → genres (db w') = genres (db w)) ∧
        (name ≠ "movies" → movies (db w') = movies (db w)) ∧
        (name ≠ "movie_genres" → movie_genres (db w') = movie_genres (db w)).
Proof.
  pose proof (load_returns data name w) as Hr.
  pose proof (load_sent data name w) as Hs.
  pose proof (load_db data name w) as Hd.
  destruct (load data name w) as [r w']. cbn [fst snd] in Hr, Hs, Hd. subst r.
  exists w'. split; [done|]. split; [done|]. rewrite Hd.
  destruct data as [df|]; [|done].
  destruct (store_after_load_shape df name) as (gs & ms & ps & Hg & Hm & Hp & _ & ->).
  cbn. repeat split; intros Hn; [rewrite Hg | rewrite Hm | rewrite Hp]; done.
Qed.

Lemma genre_stage_cases env api (w : world) :
  ∃ w1, genre_stage env api w = (Ret (), w1) ∧
        movies (db w1) = movies (db w) ∧
        movie_genres (db w1) = movie_genres (db w) ∧
        sent w1 = match env_url env "genre" with
                  | Some u => get_request env u [] :: sent w
                  | None => sent w
                  end.
Proof.
  unfold genre_stage, bind.
  destruct (extract_genre_cases env api (env_url env "genre") "genres" w)
    as (r & w0 & -> & Hdb & Hsent).
  destruct (truthy r).
  - destruct (transform_genre_world r w0) as (og & l & ->).
    destruct (load_cases og "genres" {| db := db w0; log := l; sent := sent w0 |})
      as (w1 & -> & Hs & _ & Hm & Hp).
    exists w1. cbn in Hs, Hm, Hp.
    rewrite Hs, Hm, Hp, Hdb by done. done.
  - exists w0. unfold ret. by rewrite Hdb.
Qed.

Lemma page_loaded_cases (df mg : DataFrame) (w : world) :
  sent (page_loaded df mg w) = sent w ∧
  genres (db (page_loaded df mg w)) = genres (db w) ∧
  db (page_loaded df mg w) =
    store_after_load mg "movie_genres" (store_after_load df "movies" (db w)).
Proof.
  unfold page_loaded. rewrite !load_sent, !load_db. split; [done|]. split; [|done].
  destruct (store_after_load_shape df "movies") as (gs & ms & ps & Hg & _ & _ & _ & ->).
  destruct (store_after_load_shape mg "movie_genres") as (gs' & ms' & ps' & Hg' & _ & _ & _ & ->).
  cbn. by rewrite Hg, Hg'.
Qed.

Lemma py_ge_raises (p : Z) (v : pyval) (e : exn) : py_ge p v = Raise e → e = TypeError.
Proof. destruct v; cbn; congruence. Qed.

Lemma main_loop_body_compare_raises env api tdv (p : Z) (w w2 : world)
    (v tp : pyval) (df mg : DataFrame) (e : exn) :
  extract_movies env api (env_url env "movie") "results" p (logged (PaginationIs p) w)
    = (Ret (Some (v, tp)), w2) →
  truthy v = true →
  transform_movies_body tdv v = Ret (df, mg) →
  py_ge p tp = Raise e →
  main_loop_body env api tdv p w = (Raise e, page_loaded df mg w2).
Proof.
  intros Hex Hv Ht Hge. unfold main_loop_body, bind, logging. cbn.
  fold (logged (PaginationIs p) w). rewrite Hex. cbn. rewrite Hv.
  unfold transform_movies, try_except, bind, lift, logging, ret. rewrite Ht. cbn.
  unfold page_loaded.
  pose proof (load_returns (Some df) "movies" w2) as H1.
  destruct (load (Some df) "movies" w2) as [r1 w3]. cbn [fst snd] in H1 |- *. subst r1.
  pose proof (load_returns (Some mg) "movie_genres" w3) as H2.
  destruct (load (Some mg) "movie_genres" w3) as [r2 w4]. cbn [fst snd] in H2 |- *. subst r2.
  cbn. by rewrite Hge.
Qed.

(** One turn, whatever happens in it: the genres are as they were, at
    most the request for the page has been sent, the only exception is
    [TypeError], and the next turn is for the same page or the next. *)
Lemma main_loop_body_cases env api tdv (p : Z) (w : world) :
  ∃ c w', main_loop_body env api tdv p w = (c, w') ∧
    genres (db w') = genres (db w) ∧
    sent w' = match env_url env "movie" with
              | Some u => get_request env u (movies_params p) :: sent w
              | None => sent w
              end ∧
    match c with
    | Raise e => e = TypeError
    | Ret Break => is_Some (env_url env "movie")
    | Ret (NextIteration p') =>
        is_Some (env_url env "movie") ∧ (p' = p ∨ p' = (p + 1)%Z)
    end.
Proof.
  destruct (extract_movies_cases env api (env_url env "movie") "results" p
              (logged (PaginationIs p) w)) as (r & w2 & Hex & Hdb & Hsent & Hnone).
  cbn [logged db sent] in Hdb, Hsent.
  assert (r ≠ None → is_Some (env_url env "movie")) as Hsome.
  { intros Hr. destruct (env_url env "movie"); [by eauto|]. by destruct Hr, Hnone. }
  destruct r as [[v tp]|].
  2:{ rewrite (main_loop_body_unpack_none env api tdv p w w2 Hex).
      do 2 eexists. split; [done|]. by rewrite Hdb. }
  specialize (Hsome ltac:(done)).
  destruct (truthy v) eqn:Hv.
  2:{ rewrite (main_loop_body_falsy env api tdv p w w2 v tp Hex Hv).
      do 2 eexists. split; [done|]. rewrite Hdb. auto. }
  destruct (transform_movies_body tdv v) as [[df mg]|e] eqn:Ht.
  2:{ rewrite (main_loop_body_transform_raises env api tdv p w w2 v tp e Hex Hv Ht).
      do 2 eexists. split; [done|]. cbn. by rewrite Hdb. }
  destruct (page_loaded_cases df mg w2) as (Hs4 & Hg4 & _).
  destruct (py_ge p tp) as [last|e] eqn:Hge.
  - rewrite (main_loop_body_loads env api tdv p w w2 v tp df mg last Hex Hv Ht Hge).
    cbn zeta. fold (page_loaded df mg w2).
    destruct last; do 2 eexists; (split; [done|]); cbn;
      rewrite Hs4, Hg4, Hdb; auto.
  - rewrite (main_loop_body_compare_raises env api tdv p w w2 v tp df mg e Hex Hv Ht Hge).
    do 2 eexists. split; [done|]. rewrite Hs4, Hg4, Hdb.
    repeat split; [done..|]. by eapply py_ge_raises.
Qed.

Lemma climbs_next (p p' : Z) (pages : list (option pyval)) :
  p' = p ∨ p' = (p + 1)%Z → climbs p' pages = true →
  climbs p (Some (PyInt p) :: pages) = true.
Proof.
  intros Hp Hc. cbn [climbs]. rewrite Z.eqb_refl. cbn.
  destruct Hp as [-> | ->]; rewrite Hc; [done|]. by rewrite orb_true_r.
Qed.

Lemma main_loop_cases env api tdv (fuel : nat) :
  ∀ (p : Z) (w : world),
  ∃ r w' pages, main_loop env api tdv fuel p w = (r, w') ∧
    genres (db w') = genres (db w) ∧
    pages_requested w' = pages_requested w ++ pages ∧
    climbs p pages = true ∧
    ∀ e, r = Raise e → e = TypeError.
Proof.
  induction fuel as [|fuel IH]; intros p w.
  - exists (Ret None), w, []. cbn. rewrite app_nil_r. by repeat split.
  - rewrite main_loop_S.
    destruct (main_loop_body_cases env api tdv p w) as (c & w1 & -> & Hg & Hs & Hc).
    assert (pages_requested w1 =
              pages_requested w ++
              match env_url env "movie" with
              | Some _ => [Some (PyInt p)]
              | None => []
              end) as Hp1.
    { unfold pages_requested. rewrite Hs.
      destruct (env_url env "movie"); cbn; by rewrite ?app_nil_r. }
    destruct c as [[|p']|e].
    + destruct Hc as [u Hu]. rewrite Hu in Hp1.
      exists (Ret (Some ())), w1, [Some (PyInt p)]. repeat split; try done.
      cbn. by rewrite Z.eqb_refl.
    + destruct Hc as [[u Hu] Hp']. rewrite Hu in Hp1.
      destruct (IH p' w1) as (r & w' & pages & -> & Hg' & Hpages & Hclimb & He).
      exists r, w', (Some (PyInt p) :: pages). split; [done|].
      split; [congruence|]. split.
      { rewrite Hpages, Hp1, <- app_assoc. done. }
      split; [by eapply climbs_next|done].
    + exists (Raise e), w1,
        (match env_url env "movie" with Some _ => [Some (PyInt p)] | None => [] end).
      repeat split; try done.
      * destruct (env_url env "movie"); cbn; [by rewrite Z.eqb_refl|done].
      * intros e' [= <-]. done.
Qed.

(** X12. The only exception that can leave [main] is [TypeError]: every
    other error of the transport, the decoding, the normalisers and the
    store is caught and logged on the way. *)
Theorem only_type_error_leaves_main env api tdv (fuel : nat) (w : world) (e : exn) :
  (main env api tdv fuel w).1 = Raise e → e = TypeError.
Proof.
  rewrite main_unfold.
  destruct (genre_stage_cases env api w) as (w1 & -> & _).
  destruct (main_loop_cases env api tdv fuel 1 w1) as (r & w' & pages & -> & _ & _ & _ & He).
  destruct r as [[[]|]|e']; cbn; [done..|].
  intros [= <-]. by apply He.
Qed.

Lemma only_type_error_leaves_main_witness :
  (main demo_env demo_bad_date_api iso_to_datetime 1 empty_world).1 = Raise TypeError ∧
  TypeError = TypeError.
Proof.
  split; [vm_compute; reflexivity|].
  apply (only_type_error_leaves_main demo_env demo_bad_date_api iso_to_datetime 1
           empty_world TypeError).
  vm_compute. reflexivity.
Defined.

(** X13. The loop asks for the pages one after the other: its first
    request is for the page it starts at, and every later request repeats
    the page before it or asks for the next one.  No page is skipped and
    none is asked for again once the next has been. *)
Theorem page_loop_never_skips_a_page env api tdv (fuel : nat) (p : Z) (w : world) :
  ∃ pages,
    pages_requested (main_loop env api tdv fuel p w).2 = pages_requested w ++ pages ∧
    climbs p pages = true.
Proof.
  destruct (main_loop_cases env api tdv fuel p w)
    as (r & w' & pages & -> & _ & Hpages & Hclimb & _).
  by exists pages.
Qed.

(** X14. Each stage of [main] writes its own tables: the taxonomy stage
    never raises and leaves the movies and the pairs as they were; the
    page loop leaves the genres as they were, however long it runs and
    however it ends. *)
Theorem stages_write_their_own_tables env api tdv (fuel : nat) (p : Z) (w : world) :
  (genre_stage env api w).1 = Ret () ∧
  movies (db (genre_stage env api w).2) = movies (db w) ∧
  movie_genres (db (genre_stage env api w).2) = movie_genres (db w) ∧
  genres (db (main_loop env api tdv fuel p w).2) = genres (db w).
Proof.
  destruct (genre_stage_cases env api w) as (w1 & -> & Hm & Hp & _).
  destruct (main_loop_cases env api tdv fuel p w) as (r & w' & pages & -> & Hg & _).
  done.
Qed.

(** X15. A page count that is no number ends the run after the page has
    been stored: with [total_pages] null, a string, a list or an object in
    the body, the records of the page are normalised and loaded, then the
    comparison with the page number raises [TypeError] and no further page
    is asked for. *)
Theorem page_count_that_is_no_number_ends_the_run env api tdv (u : string) (p : Z)
    (resp : response) (body : record) (df mg : DataFrame) (fuel : nat) (w : world) :
  env_url env "movie" = Some u →
  api (length (sent w)) (get_request env u (movies_params p)) = Some resp →
  startswith (str_int (status_code resp)) "20" = true →
  json resp = Some (PyDict body) →
  truthy (dict_get body "results" PyNone) = true →
  transform_movies_body tdv (dict_get body "results" PyNone) = Ret (df, mg) →
  match dict_get body "total_pages" (PyInt 1) with
  | PyNone | PyStr _ | PyList _ | PyDict _ => True
  | _ => False
  end →
  let out := main_loop env api tdv (S fuel) p w in
  out.1 = Raise TypeError ∧
  db out.2 = store_after_load mg "movie_genres" (store_after_load df "movies" (db w)) ∧
  pages_requested out.2 = pages_requested w ++ [Some (PyInt p)].
Proof.
  intros Hu Hapi Hok Hjson Hv Ht Htp out. subst out. rewrite main_loop_S.
  pose proof (extract_movies_page env api p w u resp body Hu Hapi Hok Hjson) as Hex.
  rewrite (main_loop_body_compare_raises env api tdv p w _ _ _ df mg TypeError Hex Hv Ht).
  2:{ destruct (dict_get body "total_pages" (PyInt 1)); done. }
  cbn [fst snd].
  match goal with |- context [page_loaded df mg ?w2] =>
    destruct (page_loaded_cases df mg w2) as (Hs & _ & Hd) end.
  rewrite Hd. unfold pages_requested. rewrite Hs. cbn. done.
Qed.

Lemma page_count_that_is_no_number_ends_the_run_witness :
  ∃ df mg,
    let out := main_loop demo_env demo_null_total_api iso_to_datetime 5 1 empty_world in
    out.1 = Raise TypeError ∧
    db out.2 = store_after_load mg "movie_genres"
                 (store_after_load df "movies" empty_store) ∧
    pages_requested out.2 = [Some (PyInt 1)].
Proof.
  destruct (transform_movies_body iso_to_datetime
              (PyList [PyDict (movie_record (PyInt 101) (PyList [PyInt 28])
                                            (PyStr "2020-01-01") "page")]))
    as [[df mg]|] eqn:Ht; [|vm_compute in Ht; discriminate].
  exists df, mg.
  exact (page_count_that_is_no_number_ends_the_run demo_env demo_null_total_api
           iso_to_datetime "https://api.example/discover/movie" 1 _
           [("page", PyInt 1);
            ("results", PyList [PyDict (movie_record (PyInt 101) (PyList [PyInt 28])
                                                     (PyStr "2020-01-01") "page")]);
            ("total_pages", PyNone)]
           df mg 4 empty_world eq_refl eq_refl eq_refl eq_refl eq_refl Ht I).
Defined.

(** X16. A whole run over a sound catalog: when every page up to the
    announced count comes back with records the normaliser accepts, [main]
    returns, having asked for the taxonomy and then for each page once, in
    order, and its last log line is the completion line; whatever the
    taxonomy request was answered. *)
Theorem main_completes_on_a_sound_catalog env api tdv (ug u : string) (total : Z) :
  env_url env "genre" = Some ug →
  env_url env "movie" = Some u →
  (1 ≤ total)%Z →
  (∀ n p, (1 ≤ p ≤ total)%Z →
     ∃ resp body df mg,
       api n (get_request env u (movies_params p)) = Some resp ∧
       startswith (str_int (status_code resp)) "20" = true ∧
       json resp = Some (PyDict body) ∧
       truthy (dict_get body "results" PyNone) = true ∧
       transform_movies_body tdv (dict_get body "results" PyNone) = Ret (df, mg) ∧
       dict_get body "total_pages" (PyInt 1) = PyInt total) →
  ∀ (fuel : nat) (w : world), (Z.to_nat total ≤ fuel)%nat →
    let out := main env api tdv fuel w in
    out.1 = Ret (Some ()) ∧
    (∃ l, log out.2 = EtlCompleted :: l) ∧
    pages_requested out.2 =
      pages_requested w ++ None :: map (λ i, Some (PyInt i)) (seqZ 1 total).
Proof.
  intros Hug Hu Htotal Hapi fuel w Hfuel out. subst out. rewrite main_unfold.
  destruct (genre_stage_cases env api w) as (w1 & -> & _ & _ & Hs1).
  rewrite Hug in Hs1.
  destruct (main_loop_fetches_every_page env api tdv u total Hu Hapi
              (Z.to_nat (total - 1)) 1 fuel w1) as [Hr Hp]; [lia..|].
  replace (Z.of_nat (S (Z.to_nat (total - 1)))) with total in Hp by lia.
  destruct (main_loop env api tdv fuel 1 w1) as [r w']. cbn [fst snd] in Hr, Hp. subst r.
  cbn [fst snd]. split; [done|]. split; [by eexists|].
  unfold pages_requested in *. cbn [logged sent]. rewrite Hp, Hs1. cbn.
  by rewrite <- app_assoc.
Qed.

Lemma main_completes_on_a_sound_catalog_witness :
  let out := main demo_env demo_three_pages_api iso_to_datetime 3 empty_world in
  out.1 = Ret (Some ()) ∧
  (∃ l, log out.2 = EtlCompleted :: l) ∧
  pages_requested out.2 = [None; Some (PyInt 1); Some (PyInt 2); Some (PyInt 3)].
Proof.
  apply (main_completes_on_a_sound_catalog demo_env demo_three_pages_api iso_to_datetime
           "https://api.example/genre/movie/list" "https://api.example/discover/movie" 3
           eq_refl eq_refl ltac:(lia)); [|cbn; lia].
  intros n p Hp.
  destruct (transform_movies_body iso_to_datetime
              (PyList [PyDict (movie_record (PyInt (100 + p)) (PyList [PyInt 28])
                                            (PyStr "2020-01-01") "page")]))
    as [[df mg]|] eqn:Ht.
  2:{ assert (p = 1 ∨ p = 2 ∨ p = 3)%Z as [-> | [-> | ->]] by lia;
        vm_compute in Ht; discriminate. }
  exists {| status_code := 200;
            json := Some (page_body [movie_record (PyInt (100 + p)) (PyList [PyInt 28])
                                                  (PyStr "2020-01-01") "page"] 3) |},
         [("page", PyInt 1);
          ("results", PyList [PyDict (movie_record (PyInt (100 + p)) (PyList [PyInt 28])
                                                   (PyStr "2020-01-01") "page")]);
          ("total_pages", PyInt 3)], df, mg.
  repeat split; try reflexivity. exact Ht.
Defined.
